(** * SFE_CC3000: the SparkFun CC3000 wrapper, embedded and verified

    The library is a thin C++ facade over the TI CC3000 host driver:
    a constructor that records three pin numbers in process-wide
    globals, [init] (one-time bring-up), two forwarding accessors
    ([getFirmwareVersion], [getMacAddress]) and a [connect] stub.

    The embedding is shallow.  Every method is a computation in a state
    monad over the [World]: the process-wide globals of SFE_CC3000.cpp,
    the chronological trace of calls into the Arduino HAL and into the
    vendor driver, and the state of that driver.  The object itself has
    a single member, [is_initialized_]; a method takes the object and
    returns it again next to its C++ result, so that several objects can
    be run against one and the same world. *)

From Stdlib Require Import ZArith List String Bool Lia.
From ExtLib Require Import Structures.Monad Structures.MonadState.
From ExtLib Require Import Data.Monads.StateMonad.
Import ListNotations.
Import MonadNotation.

Local Open Scope Z_scope.
Local Open Scope monad_scope.

(** ** common.h *)

(** [#define DEBUG 0]: no debug output. *)
Definition DEBUG : Z := 0.

(** [#define CC3000_SUCCESS 0]: TI assigned 0 as success. *)
Definition CC3000_SUCCESS : Z := 0.

(** [uint8_t].  The pin numbers are only stored and compared, never
    computed with, so no wrap-around is ever taken. *)
Definition uint8_t : Type := Z.

(** ** The platform: Arduino HAL constants and the build target *)

Inductive PinDirection : Type := INPUT | OUTPUT.
Inductive PinLevel : Type := LOW | HIGH.
Inductive SpiMode : Type := SPI_MODE0 | SPI_MODE1 | SPI_MODE2 | SPI_MODE3.
Inductive SpiBitOrder : Type := LSBFIRST | MSBFIRST.
Inductive SpiClockDivider : Type :=
| SPI_CLOCK_DIV2 | SPI_CLOCK_DIV4 | SPI_CLOCK_DIV8 | SPI_CLOCK_DIV16
| SPI_CLOCK_DIV32 | SPI_CLOCK_DIV64 | SPI_CLOCK_DIV128.

(** [#define SPI_CLK_DIV SPI_CLOCK_DIV2] *)
Definition SPI_CLK_DIV : SpiClockDivider := SPI_CLOCK_DIV2.

(** The microcontroller the sketch is compiled for.  The four named
    constructors are the targets whose macro [init] tests for. *)
Inductive MCU : Type :=
| AVR_ATmega8 | AVR_ATmega168 | AVR_ATmega328P | AVR_ATmega328
| OtherMCU.

(** [defined(__AVR_ATmega8__) || defined(__AVR_ATmega168__) ||
     defined(__AVR_ATmega328P__) || defined(__AVR_ATmega328__)] *)
Definition supported_mcu (m : MCU) : bool :=
  match m with
  | AVR_ATmega8 | AVR_ATmega168 | AVR_ATmega328P | AVR_ATmega328 => true
  | OtherMCU => false
  end.

(** ** The vendor driver, seen from the wrapper *)

(** The free functions handed to [wlan_init], under the names they have
    in the call. *)
Inductive Callback : Type :=
| cc3000AsyncCallback
| sendFirmwarePatch
| sendDriverPatch
| sendBootLoaderPatch
| readWlanInterruptPin
| enableWlanInterrupt
| disableWlanInterrupt
| writeWlanPin.

(** Everything the wrapper does to the outside, in program order. *)
Inductive Event : Type :=
| Serial_println (msg : string)
| pinMode (pin : uint8_t) (dir : PinDirection)
| digitalWrite (pin : uint8_t) (lvl : PinLevel)
| SPI_begin
| SPI_setDataMode (m : SpiMode)
| SPI_setBitOrder (o : SpiBitOrder)
| SPI_setClockDivider (d : SpiClockDivider)
| wlan_init (callbacks : list Callback)
| delay (ms : Z)
| wlan_start (patches : Z)
| nvmem_read_sp_version_call
| nvmem_get_mac_address_call.

(** Modelled from the spec: the vendor driver (utility/wlan and
    utility/nvmem) is not among the sources.  What the wrapper relies
    on is an initialization entry point and a start routine, whose
    results it never looks at, and two queries that return a status
    code (0 = success) next to the bytes they deliver: a 2-byte version
    record (major, minor) and a 6-byte address on success.  The driver
    keeps a state of its own, of an arbitrary type [D]; how
    [wlan_init] and [wlan_start] fare shows in that state only. *)
Class Driver (D : Type) : Type := {
  drv_wlan_init : list Callback -> D -> D;
  drv_wlan_start : Z -> D -> D;
  drv_sp_version : D -> (Z * list Z) * D;
  drv_mac_address : D -> (Z * list Z) * D;
  drv_sp_version_len : forall d,
    fst (fst (drv_sp_version d)) = CC3000_SUCCESS ->
    List.length (snd (fst (drv_sp_version d))) = 2%nat;
  drv_mac_address_len : forall d,
    fst (fst (drv_mac_address d)) = CC3000_SUCCESS ->
    List.length (snd (fst (drv_mac_address d))) = 6%nat
}.

(** ** The object *)

(** [class SFE_CC3000]: its only data member. *)
Record SFE_CC3000 : Type := mkSFE_CC3000 { is_initialized_ : bool }.

(** What a method call on the public surface looks like. *)
Inductive Call : Type :=
| call_init
| call_getFirmwareVersion (fw_ver : list Z)
| call_getMacAddress (mac_addr : list Z)
| call_connect (ssid password : string) (sec : uint8_t).

(** A caller's buffer after the callee stored [bytes] at its start. *)
Definition store_bytes (bytes buf : list Z) : list Z :=
  bytes ++ skipn (List.length bytes) buf.

Section Wrapper.

(** The build target and the driver are fixed for a whole program. *)
Variable mcu : MCU.
Context {D : Type} `{Driver D}.

(** The globals of SFE_CC3000.cpp, the trace of the calls made so far
    (oldest first) and the driver's state.  [g_debug_interrupt] is only
    declared, and only written, in a build with [DEBUG == 1]. *)
Record World : Type := mkWorld {
  g_int_pin : uint8_t;
  g_int_num : uint8_t;
  g_en_pin : uint8_t;
  g_cs_pin : uint8_t;
  g_debug_interrupt : Z;
  trace : list Event;
  driver : D
}.

Definition M : Type -> Type := state World.

(** *** Primitive steps *)

Definition emit (e : Event) : M unit :=
  modify (fun w =>
    mkWorld (g_int_pin w) (g_int_num w) (g_en_pin w) (g_cs_pin w)
            (g_debug_interrupt w) (trace w ++ [e]) (driver w)) ;;
  ret tt.

Definition on_driver (f : D -> D) : M unit :=
  modify (fun w =>
    mkWorld (g_int_pin w) (g_int_num w) (g_en_pin w) (g_cs_pin w)
            (g_debug_interrupt w) (trace w) (f (driver w))) ;;
  ret tt.

Definition set_pins (int_pin en_pin cs_pin : uint8_t) : M unit :=
  modify (fun w =>
    mkWorld int_pin (g_int_num w) en_pin cs_pin
            (g_debug_interrupt w) (trace w) (driver w)) ;;
  ret tt.

Definition set_g_int_num (n : uint8_t) : M unit :=
  modify (fun w =>
    mkWorld (g_int_pin w) n (g_en_pin w) (g_cs_pin w)
            (g_debug_interrupt w) (trace w) (driver w)) ;;
  ret tt.

Definition set_g_debug_interrupt (v : Z) : M unit :=
  modify (fun w =>
    mkWorld (g_int_pin w) (g_int_num w) (g_en_pin w) (g_cs_pin w)
            v (trace w) (driver w)) ;;
  ret tt.

(** [#if (DEBUG == 1) ... #endif] *)
Definition if_debug (c : M unit) : M unit :=
  if DEBUG =? 1 then c else ret tt.

(** *** Calls into the driver *)

Definition do_wlan_init (cbs : list Callback) : M unit :=
  emit (wlan_init cbs) ;;
  on_driver (drv_wlan_init cbs).

Definition do_wlan_start (patches : Z) : M unit :=
  emit (wlan_start patches) ;;
  on_driver (drv_wlan_start patches).

(** Modelled from the spec: nvmem_read_sp_version of utility/nvmem is
    not among the sources.  It returns the driver's status code and
    leaves the bytes the driver delivers in the caller's buffer. *)
Definition nvmem_read_sp_version (fw_ver : list Z) : M (Z * list Z) :=
  w <- get ;;
  let '(status, bytes, d') := drv_sp_version (driver w) in
  emit nvmem_read_sp_version_call ;;
  on_driver (fun _ => d') ;;
  ret (status, store_bytes bytes fw_ver).

(** Modelled from the spec: nvmem_get_mac_address of utility/nvmem is
    not among the sources.  Same status convention; the address is
    left in the caller's buffer. *)
Definition nvmem_get_mac_address (mac_addr : list Z) : M (Z * list Z) :=
  w <- get ;;
  let '(status, bytes, d') := drv_mac_address (driver w) in
  emit nvmem_get_mac_address_call ;;
  on_driver (fun _ => d') ;;
  ret (status, store_bytes bytes mac_addr).

(** *** SFE_CC3000.cpp *)

(** [SFE_CC3000::SFE_CC3000(uint8_t int_pin, uint8_t en_pin,
                            uint8_t cs_pin)] *)
Definition SFE_CC3000_new (int_pin en_pin cs_pin : uint8_t)
  : M SFE_CC3000 :=
  let self := mkSFE_CC3000 false in
  set_pins int_pin en_pin cs_pin ;;
  if_debug (set_g_debug_interrupt 65535) ;;
  ret self.

(** The part of [init] after the checks: pins, SPI, driver. *)
Definition bring_up (self : SFE_CC3000) : M (bool * SFE_CC3000) :=
  w <- get ;;
  emit (pinMode (g_int_pin w) INPUT) ;;
  emit (pinMode (g_en_pin w) OUTPUT) ;;
  emit (pinMode (g_cs_pin w) OUTPUT) ;;
  emit (digitalWrite (g_en_pin w) LOW) ;;
  emit (digitalWrite (g_cs_pin w) LOW) ;;
  emit SPI_begin ;;
  emit (SPI_setDataMode SPI_MODE1) ;;
  emit (SPI_setBitOrder MSBFIRST) ;;
  emit (SPI_setClockDivider SPI_CLK_DIV) ;;
  do_wlan_init [ cc3000AsyncCallback;
                 sendFirmwarePatch;
                 sendDriverPatch;
                 sendBootLoaderPatch;
                 readWlanInterruptPin;
                 enableWlanInterrupt;
                 disableWlanInterrupt;
                 writeWlanPin ] ;;
  emit (delay 100) ;;
  do_wlan_start 0 ;;
  let self := mkSFE_CC3000 true in
  ret (true, self).

(** [bool SFE_CC3000::init()] *)
Definition init (self : SFE_CC3000) : M (bool * SFE_CC3000) :=
  if_debug (emit (Serial_println "Initializing CC3000")) ;;
  if is_initialized_ self then ret (true, self)
  else if supported_mcu mcu then
    w <- get ;;
    match g_int_pin w with
    | 2 => set_g_int_num 0 ;; bring_up self
    | 3 => set_g_int_num 1 ;; bring_up self
    | _ =>
        if_debug (emit (Serial_println
          "ERROR: Interrupt line not attached to pin 2 or 3")) ;;
        ret (false, self)
    end
  else
    if_debug (emit (Serial_println
      "ERROR: Microcontroller not supported")) ;;
    ret (false, self).

(** [bool SFE_CC3000::getFirmwareVersion(unsigned char *fw_ver)] *)
Definition getFirmwareVersion (self : SFE_CC3000) (fw_ver : list Z)
  : M (bool * list Z * SFE_CC3000) :=
  if negb (is_initialized_ self) then ret (false, fw_ver, self)
  else
    r <- nvmem_read_sp_version fw_ver ;;
    if negb (fst r =? CC3000_SUCCESS) then ret (false, snd r, self)
    else ret (true, snd r, self).

(** [bool SFE_CC3000::getMacAddress(unsigned char *mac_addr)] *)
Definition getMacAddress (self : SFE_CC3000) (mac_addr : list Z)
  : M (bool * list Z * SFE_CC3000) :=
  if negb (is_initialized_ self) then ret (false, mac_addr, self)
  else
    r <- nvmem_get_mac_address mac_addr ;;
    if negb (fst r =? CC3000_SUCCESS) then ret (false, snd r, self)
    else ret (true, snd r, self).

(** [bool SFE_CC3000::connect(const char *ssid, const char *password,
                              uint8_t sec)] *)
Definition connect (self : SFE_CC3000) (ssid password : string)
  (sec : uint8_t) : M (bool * SFE_CC3000) :=
  ret (true, self).

End Wrapper.

Arguments World D : clear implicits.
Arguments M D A : clear implicits.

(** ** Running a program *)

Section Programs.

Variable mcu : MCU.
Context {D : Type} `{Driver D}.

(** One call on the public surface; the C++ result is kept, the
    caller's buffer is not. *)
Definition invoke (c : Call) (self : SFE_CC3000)
  : M D (bool * SFE_CC3000) :=
  match c with
  | call_init => init mcu self
  | call_getFirmwareVersion fw_ver =>
      r <- getFirmwareVersion self fw_ver ;;
      ret (fst (fst r), snd r)
  | call_getMacAddress mac_addr =>
      r <- getMacAddress self mac_addr ;;
      ret (fst (fst r), snd r)
  | call_connect ssid password sec => connect self ssid password sec
  end.

(** A sequence of calls on one object, in order. *)
Fixpoint invoke_all (cs : list Call) (self : SFE_CC3000)
  : M D SFE_CC3000 :=
  match cs with
  | [] => ret self
  | c :: cs' =>
      r <- invoke c self ;;
      invoke_all cs' (snd r)
  end.

(** The object and the world once the object has been constructed
    and the calls [cs] have been made on it. *)
Definition lifetime (int_pin en_pin cs_pin : uint8_t) (cs : list Call)
  (w : World D) : SFE_CC3000 * World D :=
  runState (self <- SFE_CC3000_new int_pin en_pin cs_pin ;;
            invoke_all cs self) w.

Definition is_call_init (c : Call) : bool :=
  match c with call_init => true | _ => false end.

End Programs.

(** What one complete bring-up adds to the trace, for the pins found in
    the globals and the callbacks [cbs] handed to the driver. *)
Definition bring_up_events (int_pin en_pin cs_pin : uint8_t)
  (cbs : list Callback) : list Event :=
  [ pinMode int_pin INPUT;
    pinMode en_pin OUTPUT;
    pinMode cs_pin OUTPUT;
    digitalWrite en_pin LOW;
    digitalWrite cs_pin LOW;
    SPI_begin;
    SPI_setDataMode SPI_MODE1;
    SPI_setBitOrder MSBFIRST;
    SPI_setClockDivider SPI_CLOCK_DIV2;
    wlan_init cbs;
    delay 100;
    wlan_start 0 ].

(** ** A concrete driver, for running the model *)

(** A chip that answers every query with status [st]; firmware 1.24 and
    a fixed address.  Its state counts the calls made into it. *)
Definition test_sp_version (st : Z) (n : nat) : (Z * list Z) * nat :=
  ((st, [1; 24]), S n).

Definition test_mac_address (st : Z) (n : nat) : (Z * list Z) * nat :=
  ((st, [8; 0; 40; 1; 2; 3]), S n).

Definition test_driver (st : Z) : Driver nat := {|
  drv_wlan_init := fun _ n => S n;
  drv_wlan_start := fun _ n => S n;
  drv_sp_version := test_sp_version st;
  drv_mac_address := test_mac_address st;
  drv_sp_version_len := fun _ _ => eq_refl;
  drv_mac_address_len := fun _ _ => eq_refl
|}.

(** The chip in good health, and one that refuses every query with
    status 6. *)
#[local] Instance chip_ok : Driver nat := test_driver 0.
Definition chip_refusing : Driver nat := test_driver 6.

(** Power-on: all globals zero, nothing done yet. *)
Definition boot : World nat := mkWorld 0 0 0 0 0 [] 0%nat.

(** The world right after [SFE_CC3000 wifi(2, 7, 10)], the wiring of
    the shield, and after [SFE_CC3000 wifi(5, 7, 10)], a breakout board
    with its interrupt line on a pin without external interrupt. *)
Definition shield : World nat := mkWorld 2 0 7 10 0 [] 0%nat.
Definition breakout_on_pin_5 : World nat := mkWorld 5 0 7 10 0 [] 0%nat.

(** The object as the constructor leaves it, and as a successful
    [init] leaves it. *)
Definition fresh : SFE_CC3000 := mkSFE_CC3000 false.
Definition ready : SFE_CC3000 := mkSFE_CC3000 true.

(** The shield once [init] has run on an ATmega328P. *)
Definition shield_up : World nat :=
  snd (runState (init AVR_ATmega328P fresh) shield).

(** ** Observing a run *)

(** Calls in a trace, by kind. *)
Definition is_wlan_init (e : Event) : bool :=
  match e with wlan_init _ => true | _ => false end.

Definition is_wlan_start (e : Event) : bool :=
  match e with wlan_start _ => true | _ => false end.

Definition count_events (p : Event -> bool) (tr : list Event) : nat :=
  List.length (filter p tr).

Definition is_call_connect (c : Call) : bool :=
  match c with call_connect _ _ _ => true | _ => false end.

(** The two queries, as calls on the object and as calls into the
    driver. *)
Definition is_call_query (c : Call) : bool :=
  match c with
  | call_getFirmwareVersion _ | call_getMacAddress _ => true
  | _ => false
  end.

Definition is_nvmem_call (e : Event) : bool :=
  match e with
  | nvmem_read_sp_version_call | nvmem_get_mac_address_call => true
  | _ => false
  end.

(** The argument list of the [wlan_init] call in [init]. *)
Definition init_callbacks : list Callback :=
  [ cc3000AsyncCallback; sendFirmwarePatch; sendDriverPatch;
    sendBootLoaderPatch; readWlanInterruptPin; enableWlanInterrupt;
    disableWlanInterrupt; writeWlanPin ].

(** The member went from false to true between two states of an
    object. *)
Definition became_ready (before after : SFE_CC3000) : bool :=
  negb (is_initialized_ before) && is_initialized_ after.

Section Frame.

Context {D : Type} `{Driver D}.

(** What a run leaves alone, and what it may add: the frame of a
    step from [(self, w)] to [(self', w')]. *)
Definition framed (self : SFE_CC3000) (w : World D)
  (self' : SFE_CC3000) (w' : World D) : Prop :=
  g_int_pin w' = g_int_pin w
  /\ g_en_pin w' = g_en_pin w
  /\ g_cs_pin w' = g_cs_pin w
  /\ g_int_num w'
     = (if became_ready self self' then g_int_pin w - 2 else g_int_num w)
  /\ (is_initialized_ self = true -> self' = self)
  /\ exists added,
       trace w' = trace w ++ added
       /\ count_events is_wlan_init added
          = Nat.b2n (became_ready self self')
       /\ count_events is_wlan_start added
          = Nat.b2n (became_ready self self').

End Frame.

(** ** Programs over several objects *)

(** The pin globals belong to the process, not to an object, so what a
    call does can depend on objects constructed in between.  A program
    is a sequence of declarations [SFE_CC3000 obj(int, en, cs);] and
    calls [obj.c(...)], with objects named by numbers. *)
Inductive Stmt : Type :=
| construct (obj : nat) (int_pin en_pin cs_pin : uint8_t)
| call (obj : nat) (c : Call).

Definition is_construct (s : Stmt) : bool :=
  match s with construct _ _ _ _ => true | call _ _ => false end.

(** [s] is the call [obj.init()]. *)
Definition is_init_on (obj : nat) (s : Stmt) : bool :=
  match s with
  | call x call_init => Nat.eqb x obj
  | _ => false
  end.

(** The objects in scope. *)
Definition Objects : Type := nat -> option SFE_CC3000.

Definition no_objects : Objects := fun _ => None.

Definition bind_object (objs : Objects) (obj : nat) (self : SFE_CC3000)
  : Objects :=
  fun x => if Nat.eqb x obj then Some self else objs x.

(** What a call answered: the object, the call, the C++ result. *)
Definition Answer : Type := (nat * Call * bool)%type.

Section Several.

Variable mcu : MCU.
Context {D : Type} `{Driver D}.

(** One statement.  A call on a name that is not in scope is not a
    C++ program; it is skipped. *)
Definition exec_stmt (s : Stmt) (objs : Objects)
  : M D (list Answer * Objects) :=
  match s with
  | construct obj int_pin en_pin cs_pin =>
      self <- SFE_CC3000_new int_pin en_pin cs_pin ;;
      ret ([], bind_object objs obj self)
  | call obj c =>
      match objs obj with
      | Some self =>
          r <- invoke mcu c self ;;
          ret ([(obj, c, fst r)], bind_object objs obj (snd r))
      | None => ret ([], objs)
      end
  end.

(** A program, statement by statement, with the answers in order. *)
Fixpoint exec (p : list Stmt) (objs : Objects)
  : M D (list Answer * Objects) :=
  match p with
  | [] => ret ([], objs)
  | s :: p' =>
      r <- exec_stmt s objs ;;
      rest <- exec p' (snd r) ;;
      ret (fst r ++ fst rest, snd rest)
  end.

(** [init], as far as its answer and the object go, is blocked in a
    world: the target is not supported or the interrupt pin global is
    neither 2 nor 3. *)
Definition init_blocked (w : World D) : Prop :=
  supported_mcu mcu = false \/ (g_int_pin w <> 2 /\ g_int_pin w <> 3).

End Several.

(** * Properties *)

Section Facts.

Variable mcu : MCU.
Context {D : Type} `{Driver D}.

(** The [switch (g_int_pin)] of [init], as a chain of tests. *)
Lemma switch_2_3 (A : Type) (x : Z) (a b c : A) :
  match x with 2 => a | 3 => b | _ => c end
  = if x =? 2 then a else if x =? 3 then b else c.
Proof.
  destruct x as [|p|p]; try reflexivity.
  destruct p as [[q|q|]|[q|q|]|]; reflexivity.
Qed.

Lemma init_when_ready (self : SFE_CC3000) (w : World D) :
  is_initialized_ self = true ->
  runState (init mcu self) w = ((true, self), w).
Proof.
  intros Hr. unfold init. rewrite Hr. reflexivity.
Qed.

Lemma init_unsupported_mcu (self : SFE_CC3000) (w : World D) :
  is_initialized_ self = false ->
  supported_mcu mcu = false ->
  runState (init mcu self) w = ((false, self), w).
Proof.
  intros Hr Hm. unfold init. rewrite Hr, Hm. reflexivity.
Qed.

Lemma init_other_pin (self : SFE_CC3000) (w : World D) :
  is_initialized_ self = false ->
  g_int_pin w <> 2 -> g_int_pin w <> 3 ->
  runState (init mcu self) w = ((false, self), w).
Proof.
  intros Hr H2 H3. unfold init. rewrite Hr.
  destruct (supported_mcu mcu); [|reflexivity].
  cbn. rewrite switch_2_3.
  destruct (Z.eqb_spec (g_int_pin w) 2); [contradiction|].
  destruct (Z.eqb_spec (g_int_pin w) 3); [contradiction|].
  reflexivity.
Qed.

(** A first [init] on a supported target with the interrupt line on
    pin 2 or 3 runs the whole sequence. *)
Lemma init_first_success (self : SFE_CC3000) (w : World D) :
  is_initialized_ self = false ->
  supported_mcu mcu = true ->
  g_int_pin w = 2 \/ g_int_pin w = 3 ->
  exists w',
    runState (init mcu self) w = ((true, mkSFE_CC3000 true), w')
    /\ trace w' = trace w ++
         bring_up_events (g_int_pin w) (g_en_pin w) (g_cs_pin w)
           [ cc3000AsyncCallback; sendFirmwarePatch; sendDriverPatch;
             sendBootLoaderPatch; readWlanInterruptPin;
             enableWlanInterrupt; disableWlanInterrupt; writeWlanPin ]
    /\ g_int_pin w' = g_int_pin w
    /\ g_en_pin w' = g_en_pin w
    /\ g_cs_pin w' = g_cs_pin w
    /\ g_int_num w' = g_int_pin w - 2.
Proof.
  intros Hr Hm Hp. unfold init. rewrite Hr, Hm.
  cbn. rewrite switch_2_3.
  destruct (Z.eqb_spec (g_int_pin w) 2) as [E|N2];
    [|destruct (Z.eqb_spec (g_int_pin w) 3) as [E|N3];
      [|destruct Hp; contradiction]];
    (eexists; split; [reflexivity|]; cbn;
     repeat rewrite <- app_assoc; cbn; rewrite E;
     repeat split; reflexivity).
Qed.

(** Either [init] gives up at once or it goes all the way. *)
Lemma init_cases (self : SFE_CC3000) (w : World D) :
  is_initialized_ self = false ->
  runState (init mcu self) w = ((false, self), w)
  \/ exists w',
       runState (init mcu self) w = ((true, mkSFE_CC3000 true), w')
       /\ trace w' = trace w ++
            bring_up_events (g_int_pin w) (g_en_pin w) (g_cs_pin w)
              [ cc3000AsyncCallback; sendFirmwarePatch;
                sendDriverPatch; sendBootLoaderPatch;
                readWlanInterruptPin; enableWlanInterrupt;
                disableWlanInterrupt; writeWlanPin ].
Proof.
  intros Hr.
  destruct (supported_mcu mcu) eqn:Hm;
    [|left; now apply init_unsupported_mcu].
  destruct (Z.eq_dec (g_int_pin w) 2) as [E2|N2].
  - right. destruct (init_first_success self w Hr Hm (or_introl E2))
      as (w' & Hrun & Htr & _). eauto.
  - destruct (Z.eq_dec (g_int_pin w) 3) as [E3|N3].
    + right. destruct (init_first_success self w Hr Hm (or_intror E3))
        as (w' & Hrun & Htr & _). eauto.
    + left. now apply init_other_pin.
Qed.

Lemma new_run (int_pin en_pin cs_pin : uint8_t) (w : World D) :
  runState (SFE_CC3000_new int_pin en_pin cs_pin) w
  = (mkSFE_CC3000 false,
     mkWorld int_pin (g_int_num w) en_pin cs_pin
             (g_debug_interrupt w) (trace w) (driver w)).
Proof. reflexivity. Qed.

Lemma getFirmwareVersion_not_ready self (fw_ver : list Z) (w : World D) :
  is_initialized_ self = false ->
  runState (getFirmwareVersion self fw_ver) w = ((false, fw_ver, self), w).
Proof. intros Hr. unfold getFirmwareVersion. rewrite Hr. reflexivity. Qed.

Lemma getMacAddress_not_ready self (mac_addr : list Z) (w : World D) :
  is_initialized_ self = false ->
  runState (getMacAddress self mac_addr) w = ((false, mac_addr, self), w).
Proof. intros Hr. unfold getMacAddress. rewrite Hr. reflexivity. Qed.

(** With the driver's answer named, a query on a ready object. *)
Lemma getFirmwareVersion_ready self (fw_ver : list Z) (w : World D) :
  is_initialized_ self = true ->
  fst (runState (getFirmwareVersion self fw_ver) w)
  = (fst (fst (drv_sp_version (driver w))) =? CC3000_SUCCESS,
     store_bytes (snd (fst (drv_sp_version (driver w)))) fw_ver,
     self).
Proof.
  intros Hr. unfold getFirmwareVersion, nvmem_read_sp_version.
  rewrite Hr. cbn.
  destruct (drv_sp_version (driver w)) as [[st bytes] d']. cbn.
  destruct (st =? CC3000_SUCCESS); reflexivity.
Qed.

Lemma getMacAddress_ready self (mac_addr : list Z) (w : World D) :
  is_initialized_ self = true ->
  fst (runState (getMacAddress self mac_addr) w)
  = (fst (fst (drv_mac_address (driver w))) =? CC3000_SUCCESS,
     store_bytes (snd (fst (drv_mac_address (driver w)))) mac_addr,
     self).
Proof.
  intros Hr. unfold getMacAddress, nvmem_get_mac_address.
  rewrite Hr. cbn.
  destruct (drv_mac_address (driver w)) as [[st bytes] d']. cbn.
  destruct (st =? CC3000_SUCCESS); reflexivity.
Qed.

(** *** Sequences of calls *)

Lemma invoke_all_cons (c : Call) (cs : list Call) self (w : World D) :
  runState (invoke_all mcu (c :: cs) self) w
  = runState (invoke_all mcu cs (snd (fst (runState (invoke mcu c self) w))))
             (snd (runState (invoke mcu c self) w)).
Proof.
  cbn [invoke_all]. cbn [bind Monad_state runState].
  destruct (runState (invoke mcu c self) w) as [[b self'] w'].
  reflexivity.
Qed.

Lemma invoke_all_app (pre post : list Call) self (w : World D) :
  runState (invoke_all mcu (pre ++ post) self) w
  = runState (invoke_all mcu post (fst (runState (invoke_all mcu pre self) w)))
             (snd (runState (invoke_all mcu pre self) w)).
Proof.
  revert self w. induction pre as [|c pre IH]; intros self w.
  - reflexivity.
  - rewrite <- app_comm_cons, !invoke_all_cons. apply IH.
Qed.

(** A call on an object that is not ready changes nothing at all,
    unless it is an [init] that goes through. *)
Lemma invoke_idle (c : Call) self (w : World D) :
  is_initialized_ self = false ->
  (is_call_init c = true ->
   runState (init mcu self) w = ((false, self), w)) ->
  snd (fst (runState (invoke mcu c self) w)) = self
  /\ snd (runState (invoke mcu c self) w) = w.
Proof.
  intros Hr Hi. destruct c as [|fw_ver|mac_addr|ssid password sec].
  - cbn [invoke]. rewrite (Hi eq_refl). split; reflexivity.
  - cbn [invoke]. cbn [bind Monad_state runState].
    rewrite (getFirmwareVersion_not_ready _ _ _ Hr). split; reflexivity.
  - cbn [invoke]. cbn [bind Monad_state runState].
    rewrite (getMacAddress_not_ready _ _ _ Hr). split; reflexivity.
  - split; reflexivity.
Qed.

(** No call ever takes readiness away: a ready object comes back
    from every call as it went in. *)
Lemma invoke_when_ready (c : Call) self (w : World D) :
  is_initialized_ self = true ->
  snd (fst (runState (invoke mcu c self) w)) = self.
Proof.
  intros Hr. destruct c as [|fw_ver|mac_addr|ssid password sec].
  - cbn [invoke]. now rewrite init_when_ready.
  - cbn [invoke]. cbn [bind Monad_state runState].
    pose proof (getFirmwareVersion_ready self fw_ver w Hr) as E.
    destruct (runState (getFirmwareVersion self fw_ver) w) as [r w'].
    cbn in E |- *. now rewrite E.
  - cbn [invoke]. cbn [bind Monad_state runState].
    pose proof (getMacAddress_ready self mac_addr w Hr) as E.
    destruct (runState (getMacAddress self mac_addr) w) as [r w'].
    cbn in E |- *. now rewrite E.
  - reflexivity.
Qed.

Lemma invoke_all_when_ready (cs : list Call) self (w : World D) :
  is_initialized_ self = true ->
  fst (runState (invoke_all mcu cs self) w) = self.
Proof.
  revert w. induction cs as [|c cs IH]; intros w Hr.
  - reflexivity.
  - rewrite invoke_all_cons, (invoke_when_ready c self w Hr).
    now apply IH.
Qed.

(** While [init] cannot go through, a whole sequence is idle. *)
Lemma invoke_all_blocked (cs : list Call) self (w : World D) :
  is_initialized_ self = false ->
  runState (init mcu self) w = ((false, self), w) ->
  runState (invoke_all mcu cs self) w = (self, w).
Proof.
  intros Hr Hi. induction cs as [|c cs IH].
  - reflexivity.
  - rewrite invoke_all_cons.
    destruct (invoke_idle c self w Hr (fun _ => Hi)) as [E1 E2].
    now rewrite E1, E2.
Qed.

(** So is a sequence without any [init] in it. *)
Lemma invoke_all_no_init (cs : list Call) self (w : World D) :
  is_initialized_ self = false ->
  existsb is_call_init cs = false ->
  runState (invoke_all mcu cs self) w = (self, w).
Proof.
  intros Hr. induction cs as [|c cs IH]; intros Hn.
  - reflexivity.
  - cbn in Hn. apply orb_false_elim in Hn as [Hc Hcs].
    rewrite invoke_all_cons.
    destruct (invoke_idle c self w Hr) as [E1 E2];
      [rewrite Hc; discriminate|].
    rewrite E1, E2. now apply IH.
Qed.

Lemma lifetime_run (int_pin en_pin cs_pin : uint8_t) (cs : list Call)
  (w : World D) :
  lifetime mcu int_pin en_pin cs_pin cs w
  = runState (invoke_all mcu cs (mkSFE_CC3000 false))
      (mkWorld int_pin (g_int_num w) en_pin cs_pin
               (g_debug_interrupt w) (trace w) (driver w)).
Proof. reflexivity. Qed.

(** Readiness has a cause: an [init] in the sequence, made while the
    object was not ready, that ran the whole bring-up. *)
Lemma ready_has_cause (cs : list Call) :
  forall self (w : World D),
    is_initialized_ self = false ->
    is_initialized_ (fst (runState (invoke_all mcu cs self) w)) = true ->
    exists pre post,
      cs = pre ++ call_init :: post
      /\ is_initialized_ (fst (runState (invoke_all mcu pre self) w)) = false
      /\ exists w',
           runState (init mcu (fst (runState (invoke_all mcu pre self) w)))
                    (snd (runState (invoke_all mcu pre self) w))
           = ((true, mkSFE_CC3000 true), w')
           /\ trace w'
              = trace (snd (runState (invoke_all mcu pre self) w)) ++
                bring_up_events
                  (g_int_pin (snd (runState (invoke_all mcu pre self) w)))
                  (g_en_pin (snd (runState (invoke_all mcu pre self) w)))
                  (g_cs_pin (snd (runState (invoke_all mcu pre self) w)))
                  [ cc3000AsyncCallback; sendFirmwarePatch;
                    sendDriverPatch; sendBootLoaderPatch;
                    readWlanInterruptPin; enableWlanInterrupt;
                    disableWlanInterrupt; writeWlanPin ].
Proof.
  induction cs as [|c cs IH]; intros self w Hr Hend.
  - cbn in Hend. congruence.
  - rewrite invoke_all_cons in Hend.
    destruct (is_initialized_ (snd (fst (runState (invoke mcu c self) w))))
      eqn:Hafter.
    + (* this very call made the object ready: it is the [init] *)
      destruct (is_call_init c) eqn:Hc.
      * destruct c; try discriminate Hc.
        exists [], cs. split; [reflexivity|]. split; [exact Hr|].
        cbn [invoke] in Hafter.
        destruct (init_cases self w Hr) as [Hfail|(w' & Hrun & Htr)].
        -- rewrite Hfail in Hafter. cbn in Hafter. congruence.
        -- exists w'. split; [exact Hrun|exact Htr].
      * destruct (invoke_idle c self w Hr) as [E _];
          [rewrite Hc; discriminate|].
        rewrite E in Hafter. congruence.
    + destruct (IH _ _ Hafter Hend) as (pre & post & Hcs & Hpre & Hinit).
      exists (c :: pre), post. split; [now rewrite Hcs|].
      rewrite invoke_all_cons. split; [exact Hpre|exact Hinit].
Qed.

(** [init] answers [true] only with a ready object in hand. *)
Lemma init_true_ready self (w : World D) self' w' :
  runState (init mcu self) w = ((true, self'), w') ->
  is_initialized_ self' = true.
Proof.
  intros Hrun. destruct (is_initialized_ self) eqn:Hr.
  - rewrite (init_when_ready self w Hr) in Hrun. congruence.
  - destruct (init_cases self w Hr) as [Hfail|(w2 & Hok & _)].
    + rewrite Hfail in Hrun. discriminate.
    + rewrite Hok in Hrun. injection Hrun as <- _. reflexivity.
Qed.

End Facts.

(** ** Frames and sequences *)

Section Frames.

Variable mcu : MCU.
Context {D : Type} `{Driver D}.

(** The whole outcome of an [init] on an object that is not ready. *)
Lemma init_outcome (self : SFE_CC3000) (w : World D) :
  is_initialized_ self = false ->
  (runState (init mcu self) w = ((false, self), w)
   /\ (supported_mcu mcu = false
       \/ (g_int_pin w <> 2 /\ g_int_pin w <> 3)))
  \/ (supported_mcu mcu = true
      /\ (g_int_pin w = 2 \/ g_int_pin w = 3)
      /\ runState (init mcu self) w
         = ((true, mkSFE_CC3000 true),
            mkWorld (g_int_pin w) (g_int_pin w - 2) (g_en_pin w)
              (g_cs_pin w) (g_debug_interrupt w)
              (trace w ++ bring_up_events (g_int_pin w) (g_en_pin w)
                            (g_cs_pin w) init_callbacks)
              (drv_wlan_start 0
                 (drv_wlan_init init_callbacks (driver w))))).
Proof.
  intros Hr.
  destruct (supported_mcu mcu) eqn:Hm;
    [|left; split; [now apply init_unsupported_mcu|now left]].
  destruct (Z.eq_dec (g_int_pin w) 2) as [E|N2];
    [|destruct (Z.eq_dec (g_int_pin w) 3) as [E|N3]].
  3: { left. split; [now apply init_other_pin|right; now split]. }
  all: right; split; [reflexivity|]; split; [auto|];
    unfold init; rewrite Hr, Hm; cbn; rewrite switch_2_3.
  - rewrite (proj2 (Z.eqb_eq _ _) E). cbn.
    repeat rewrite <- app_assoc. cbn. rewrite E. reflexivity.
  - rewrite (proj2 (Z.eqb_neq _ _) N2), (proj2 (Z.eqb_eq _ _) E). cbn.
    repeat rewrite <- app_assoc. cbn. rewrite E. reflexivity.
Qed.

(** The whole outcome of a query on a ready object. *)
Lemma getFirmwareVersion_ready_run self (fw_ver : list Z) (w : World D) :
  is_initialized_ self = true ->
  runState (getFirmwareVersion self fw_ver) w
  = ((fst (fst (drv_sp_version (driver w))) =? CC3000_SUCCESS,
      store_bytes (snd (fst (drv_sp_version (driver w)))) fw_ver,
      self),
     mkWorld (g_int_pin w) (g_int_num w) (g_en_pin w) (g_cs_pin w)
       (g_debug_interrupt w) (trace w ++ [nvmem_read_sp_version_call])
       (snd (drv_sp_version (driver w)))).
Proof.
  intros Hr. unfold getFirmwareVersion, nvmem_read_sp_version.
  rewrite Hr. cbn.
  destruct (drv_sp_version (driver w)) as [[st bytes] d']. cbn.
  destruct (st =? CC3000_SUCCESS); reflexivity.
Qed.

Lemma getMacAddress_ready_run self (mac_addr : list Z) (w : World D) :
  is_initialized_ self = true ->
  runState (getMacAddress self mac_addr) w
  = ((fst (fst (drv_mac_address (driver w))) =? CC3000_SUCCESS,
      store_bytes (snd (fst (drv_mac_address (driver w)))) mac_addr,
      self),
     mkWorld (g_int_pin w) (g_int_num w) (g_en_pin w) (g_cs_pin w)
       (g_debug_interrupt w) (trace w ++ [nvmem_get_mac_address_call])
       (snd (drv_mac_address (driver w)))).
Proof.
  intros Hr. unfold getMacAddress, nvmem_get_mac_address.
  rewrite Hr. cbn.
  destruct (drv_mac_address (driver w)) as [[st bytes] d']. cbn.
  destruct (st =? CC3000_SUCCESS); reflexivity.
Qed.

Lemma framed_idle self (w : World D) : framed self w self w.
Proof.
  unfold framed, became_ready.
  repeat split; try reflexivity.
  - now destruct (is_initialized_ self).
  - exists []. rewrite app_nil_r.
    destruct (is_initialized_ self); repeat split; reflexivity.
Qed.

Lemma invoke_framed (c : Call) self (w : World D) :
  framed self w (snd (fst (runState (invoke mcu c self) w)))
         (snd (runState (invoke mcu c self) w)).
Proof.
  destruct (is_initialized_ self) eqn:Hr.
  - (* ready: nothing but a query reaches the outside *)
    destruct c as [|fw_ver|mac_addr|ssid password sec]; cbn [invoke].
    + rewrite (init_when_ready mcu self w Hr). apply framed_idle.
    + cbn [bind Monad_state runState].
      rewrite (getFirmwareVersion_ready_run self fw_ver w Hr). cbn.
      unfold framed, became_ready. rewrite Hr. cbn.
      repeat split; try reflexivity.
      exists [nvmem_read_sp_version_call]. repeat split; reflexivity.
    + cbn [bind Monad_state runState].
      rewrite (getMacAddress_ready_run self mac_addr w Hr). cbn.
      unfold framed, became_ready. rewrite Hr. cbn.
      repeat split; try reflexivity.
      exists [nvmem_get_mac_address_call]. repeat split; reflexivity.
    + apply framed_idle.
  - destruct c as [|fw_ver|mac_addr|ssid password sec]; cbn [invoke].
    + destruct (init_outcome self w Hr) as [[Hrun _]|(_ & Hp & Hrun)];
        rewrite Hrun; cbn [fst snd]; [apply framed_idle|].
      unfold framed, became_ready. rewrite Hr. cbn.
      repeat split; try reflexivity; [discriminate|].
      eexists. split; [reflexivity|]. split; reflexivity.
    + cbn [bind Monad_state runState].
      rewrite (getFirmwareVersion_not_ready self fw_ver w Hr).
      apply framed_idle.
    + cbn [bind Monad_state runState].
      rewrite (getMacAddress_not_ready self mac_addr w Hr).
      apply framed_idle.
    + apply framed_idle.
Qed.

Lemma count_events_app (p : Event -> bool) (l1 l2 : list Event) :
  count_events p (l1 ++ l2) = (count_events p l1 + count_events p l2)%nat.
Proof.
  unfold count_events. now rewrite filter_app, length_app.
Qed.

(** Frames compose. *)
Lemma framed_trans self0 (w0 : World D) self1 w1 self2 w2 :
  framed self0 w0 self1 w1 ->
  framed self1 w1 self2 w2 ->
  framed self0 w0 self2 w2.
Proof.
  intros (Hi1 & He1 & Hc1 & Hn1 & Hk1 & a1 & Ht1 & Hwi1 & Hws1)
         (Hi2 & He2 & Hc2 & Hn2 & Hk2 & a2 & Ht2 & Hwi2 & Hws2).
  unfold framed.
  split; [congruence|]. split; [congruence|]. split; [congruence|].
  assert (Hcases :
    (is_initialized_ self0 = true /\ self1 = self0 /\ self2 = self0)
    \/ (is_initialized_ self0 = false /\ is_initialized_ self1 = true
        /\ self2 = self1)
    \/ (is_initialized_ self0 = false /\ is_initialized_ self1 = false)).
  { destruct (is_initialized_ self0) eqn:R0.
    - left. specialize (Hk1 eq_refl). subst self1.
      rewrite R0 in Hk2. specialize (Hk2 eq_refl). now subst self2.
    - destruct (is_initialized_ self1) eqn:R1.
      + right; left. specialize (Hk2 eq_refl). now subst self2.
      + right; right. now split. }
  split; [|split].
  - destruct Hcases as [(R0 & -> & ->)|[(R0 & R1 & ->)|(R0 & R1)]];
      unfold became_ready in *;
      rewrite ?R0, ?R1 in *; cbn in *; try congruence.
    rewrite Hn2, Hn1, Hi1. reflexivity.
  - intros R0.
    destruct Hcases as [(_ & -> & ->)|[(R0' & _)|(R0' & _)]];
      congruence.
  - exists (a1 ++ a2). rewrite Ht2, Ht1, <- app_assoc.
    split; [reflexivity|]. rewrite !count_events_app.
    rewrite Hwi1, Hwi2, Hws1, Hws2.
    destruct Hcases as [(R0 & -> & ->)|[(R0 & R1 & ->)|(R0 & R1)]];
      unfold became_ready; rewrite ?R0, ?R1; cbn;
      split; try reflexivity; now rewrite ?Nat.add_0_r.
Qed.

Lemma invoke_all_framed (cs : list Call) :
  forall self (w : World D),
    framed self w (fst (runState (invoke_all mcu cs self) w))
           (snd (runState (invoke_all mcu cs self) w)).
Proof.
  induction cs as [|c cs IH]; intros self w.
  - apply framed_idle.
  - rewrite invoke_all_cons.
    eapply framed_trans; [apply invoke_framed|apply IH].
Qed.

End Frames.

Section Sequences.

Variable mcu : MCU.
Context {D : Type} `{Driver D}.

(** What a call answers while [init] cannot go through. *)
Lemma invoke_blocked (c : Call) self (w : World D) :
  is_initialized_ self = false ->
  runState (init mcu self) w = ((false, self), w) ->
  runState (invoke mcu c self) w = ((is_call_connect c, self), w).
Proof.
  intros Hr Hi. destruct c as [|fw_ver|mac_addr|ssid password sec];
    cbn [invoke is_call_connect].
  - exact Hi.
  - cbn [bind Monad_state runState].
    now rewrite (getFirmwareVersion_not_ready self fw_ver w Hr).
  - cbn [bind Monad_state runState].
    now rewrite (getMacAddress_not_ready self mac_addr w Hr).
  - reflexivity.
Qed.

(** On a ready object an [init] in a sequence can be left out. *)
Lemma invoke_all_ready_skip_init (cs : list Call) :
  forall self (w : World D),
    is_initialized_ self = true ->
    runState (invoke_all mcu (filter (fun c => negb (is_call_init c)) cs)
                self) w
    = runState (invoke_all mcu cs self) w.
Proof.
  induction cs as [|c cs IH]; intros self w Hr.
  - reflexivity.
  - cbn [filter]. destruct (is_call_init c) eqn:Hc; cbn [negb].
    + destruct c; try discriminate Hc.
      rewrite (invoke_all_cons mcu call_init cs). cbn [invoke].
      rewrite (init_when_ready mcu self w Hr). cbn [fst snd].
      now apply IH.
    + rewrite !invoke_all_cons.
      rewrite (invoke_when_ready mcu c self w Hr). now apply IH.
Qed.

End Sequences.

(** ** Several objects *)

Section SeveralFacts.

Variable mcu : MCU.
Context {D : Type} `{Driver D}.

Lemma bind_object_same (objs : Objects) (x : nat) self :
  bind_object objs x self x = Some self.
Proof. unfold bind_object. now rewrite Nat.eqb_refl. Qed.

Lemma bind_object_other (objs : Objects) (x y : nat) self :
  y <> x -> bind_object objs x self y = objs y.
Proof.
  intros Hne. unfold bind_object.
  now rewrite (proj2 (Nat.eqb_neq y x) Hne).
Qed.

Lemma exec_cons (s : Stmt) (p : list Stmt) (objs : Objects) (w : World D) :
  runState (exec mcu (s :: p) objs) w
  = ((fst (fst (runState (exec_stmt mcu s objs) w))
        ++ fst (fst (runState
                       (exec mcu p
                          (snd (fst (runState (exec_stmt mcu s objs) w))))
                       (snd (runState (exec_stmt mcu s objs) w)))),
      snd (fst (runState
                  (exec mcu p
                     (snd (fst (runState (exec_stmt mcu s objs) w))))
                  (snd (runState (exec_stmt mcu s objs) w))))),
     snd (runState
            (exec mcu p (snd (fst (runState (exec_stmt mcu s objs) w))))
            (snd (runState (exec_stmt mcu s objs) w)))).
Proof.
  cbn [exec]. cbn [bind Monad_state runState].
  destruct (runState (exec_stmt mcu s objs) w) as [[l1 objs1] w1].
  cbn [fst snd].
  destruct (runState (exec mcu p objs1) w1) as [[l2 objs2] w2].
  reflexivity.
Qed.

(** Running [p ++ q] is running [q] where [p] left off. *)
Lemma exec_app (p q : list Stmt) :
  forall (objs : Objects) (w : World D),
    snd (fst (runState (exec mcu (p ++ q) objs) w))
    = snd (fst (runState
                  (exec mcu q (snd (fst (runState (exec mcu p objs) w))))
                  (snd (runState (exec mcu p objs) w))))
    /\ snd (runState (exec mcu (p ++ q) objs) w)
       = snd (runState
                (exec mcu q (snd (fst (runState (exec mcu p objs) w))))
                (snd (runState (exec mcu p objs) w))).
Proof.
  induction p as [|s p IH]; intros objs w.
  - split; reflexivity.
  - rewrite <- app_comm_cons, !exec_cons. cbn [fst snd]. apply IH.
Qed.

Lemma exec_construct (x : nat) (int_pin en_pin cs_pin : uint8_t)
  (objs : Objects) (w : World D) :
  runState (exec_stmt mcu (construct x int_pin en_pin cs_pin) objs) w
  = (([], bind_object objs x (mkSFE_CC3000 false)),
     mkWorld int_pin (g_int_num w) en_pin cs_pin
             (g_debug_interrupt w) (trace w) (driver w)).
Proof. reflexivity. Qed.

Lemma exec_call (x : nat) (c : Call) (objs : Objects) self (w : World D) :
  objs x = Some self ->
  runState (exec_stmt mcu (call x c) objs) w
  = (([(x, c, fst (fst (runState (invoke mcu c self) w)))],
      bind_object objs x (snd (fst (runState (invoke mcu c self) w)))),
     snd (runState (invoke mcu c self) w)).
Proof.
  intros Hx. cbn [exec_stmt]. rewrite Hx.
  cbn [bind Monad_state runState].
  destruct (runState (invoke mcu c self) w) as [[b self'] w'].
  reflexivity.
Qed.

Lemma exec_call_unbound (x : nat) (c : Call) (objs : Objects) (w : World D) :
  objs x = None ->
  runState (exec_stmt mcu (call x c) objs) w = (([], objs), w).
Proof. intros Hx. cbn [exec_stmt]. now rewrite Hx. Qed.

Lemma init_blocked_fails self (w : World D) :
  init_blocked mcu w ->
  is_initialized_ self = false ->
  runState (init mcu self) w = ((false, self), w).
Proof.
  intros [Hm|[N2 N3]] Hr.
  - now apply init_unsupported_mcu.
  - now apply init_other_pin.
Qed.

(** Calls, on whatever objects, leave the interrupt pin global alone. *)
Lemma exec_calls_keep_int_pin (p : list Stmt) :
  forall (objs : Objects) (w : World D),
    existsb is_construct p = false ->
    g_int_pin (snd (runState (exec mcu p objs) w)) = g_int_pin w.
Proof.
  induction p as [|s p IH]; intros objs w Hp.
  - reflexivity.
  - cbn [existsb] in Hp. apply orb_false_elim in Hp as [Hs Hp].
    rewrite exec_cons. cbn [fst snd].
    destruct s as [x i e c|x c]; [discriminate Hs|].
    destruct (objs x) as [self|] eqn:Hx.
    + rewrite (exec_call x c objs self w Hx). cbn [fst snd].
      rewrite (IH _ _ Hp).
      apply (invoke_framed mcu c self w).
    + rewrite (exec_call_unbound x c objs w Hx). cbn [fst snd].
      now apply IH.
Qed.

(** While [init] is blocked and nothing is constructed, an object that
    is not ready stays exactly as it is, whatever is called on it or
    on the others. *)
Lemma exec_calls_keep_blocked_object (p : list Stmt) :
  forall (objs : Objects) (w : World D) (a : nat) self,
    existsb is_construct p = false ->
    init_blocked mcu w ->
    objs a = Some self ->
    is_initialized_ self = false ->
    snd (fst (runState (exec mcu p objs) w)) a = Some self.
Proof.
  induction p as [|s p IH]; intros objs w a self Hp Hb Ha Hr.
  - exact Ha.
  - cbn [existsb] in Hp. apply orb_false_elim in Hp as [Hs Hp].
    rewrite exec_cons. cbn [fst snd].
    destruct s as [x i e c|x c]; [discriminate Hs|].
    destruct (objs x) as [selfx|] eqn:Hx.
    + rewrite (exec_call x c objs selfx w Hx). cbn [fst snd].
      apply IH; try assumption.
      * destruct Hb as [Hm|Hpins]; [now left|right].
        destruct (invoke_framed mcu c selfx w) as (Hi & _).
        now rewrite Hi.
      * destruct (Nat.eq_dec a x) as [->|Hne].
        -- rewrite Ha in Hx. injection Hx as <-.
           rewrite bind_object_same. f_equal.
           apply (invoke_idle mcu c self w Hr).
           intros _. now apply init_blocked_fails.
        -- now rewrite bind_object_other.
    + rewrite (exec_call_unbound x c objs w Hx). cbn [fst snd].
      now apply IH.
Qed.

(** Without a construction and without an [init] on it, an object that
    is not ready stays exactly as it is. *)
Lemma exec_calls_keep_unready_object (p : list Stmt) :
  forall (objs : Objects) (w : World D) (a : nat) self,
    existsb is_construct p = false ->
    existsb (is_init_on a) p = false ->
    objs a = Some self ->
    is_initialized_ self = false ->
    snd (fst (runState (exec mcu p objs) w)) a = Some self.
Proof.
  induction p as [|s p IH]; intros objs w a self Hp Hn Ha Hr.
  - exact Ha.
  - cbn [existsb] in Hp, Hn.
    apply orb_false_elim in Hp as [Hs Hp].
    apply orb_false_elim in Hn as [Hsn Hn].
    rewrite exec_cons. cbn [fst snd].
    destruct s as [x i e c|x c]; [discriminate Hs|].
    destruct (objs x) as [selfx|] eqn:Hx.
    + rewrite (exec_call x c objs selfx w Hx). cbn [fst snd].
      apply IH; try assumption.
      destruct (Nat.eq_dec a x) as [->|Hne].
      * rewrite Ha in Hx. injection Hx as <-.
        rewrite bind_object_same. f_equal.
        apply (invoke_idle mcu c self w Hr).
        intros Hc. destruct c; try discriminate Hc.
        cbn [is_init_on] in Hsn. rewrite Nat.eqb_refl in Hsn.
        discriminate Hsn.
      * now rewrite bind_object_other.
    + rewrite (exec_call_unbound x c objs w Hx). cbn [fst snd].
      now apply IH.
Qed.

(** Without a construction, a ready object stays exactly as it is. *)
Lemma exec_calls_keep_ready_object (p : list Stmt) :
  forall (objs : Objects) (w : World D) (a : nat) self,
    existsb is_construct p = false ->
    objs a = Some self ->
    is_initialized_ self = true ->
    snd (fst (runState (exec mcu p objs) w)) a = Some self.
Proof.
  induction p as [|s p IH]; intros objs w a self Hp Ha Hr.
  - exact Ha.
  - cbn [existsb] in Hp. apply orb_false_elim in Hp as [Hs Hp].
    rewrite exec_cons. cbn [fst snd].
    destruct s as [x i e c|x c]; [discriminate Hs|].
    destruct (objs x) as [selfx|] eqn:Hx.
    + rewrite (exec_call x c objs selfx w Hx). cbn [fst snd].
      apply IH; try assumption.
      destruct (Nat.eq_dec a x) as [->|Hne].
      * rewrite Ha in Hx. injection Hx as <-.
        rewrite bind_object_same. f_equal.
        now apply invoke_when_ready.
      * now rewrite bind_object_other.
    + rewrite (exec_call_unbound x c objs w Hx). cbn [fst snd].
      now apply IH.
Qed.

(** On a supported target with the interrupt pin global at 2 or 3, and
    without a construction, an object that is not ready is ready at
    the end exactly if [init] was called on it. *)
Lemma exec_calls_ready_iff_init (p : list Stmt) :
  forall (objs : Objects) (w : World D) (a : nat) self,
    existsb is_construct p = false ->
    supported_mcu mcu = true ->
    g_int_pin w = 2 \/ g_int_pin w = 3 ->
    objs a = Some self ->
    is_initialized_ self = false ->
    exists self',
      snd (fst (runState (exec mcu p objs) w)) a = Some self'
      /\ is_initialized_ self' = existsb (is_init_on a) p.
Proof.
  induction p as [|s p IH]; intros objs w a self Hp Hm Hpin Ha Hr.
  - exists self. now split.
  - cbn [existsb] in Hp |- *. apply orb_false_elim in Hp as [Hs Hp].
    rewrite exec_cons. cbn [fst snd].
    destruct s as [x i e c|x c]; [discriminate Hs|].
    destruct (objs x) as [selfx|] eqn:Hx.
    + rewrite (exec_call x c objs selfx w Hx). cbn [fst snd].
      assert (Hpin' :
        g_int_pin (snd (runState (invoke mcu c selfx) w)) = 2
        \/ g_int_pin (snd (runState (invoke mcu c selfx) w)) = 3).
      { destruct (invoke_framed mcu c selfx w) as (Hi & _).
        now rewrite Hi. }
      destruct (Nat.eq_dec a x) as [->|Hne].
      * rewrite Ha in Hx. injection Hx as <-.
        destruct (is_call_init c) eqn:Hc.
        -- (* the [init] that brings the object up *)
           destruct c; try discriminate Hc.
           cbn [is_init_on]. rewrite Nat.eqb_refl. cbn [orb invoke].
           destruct (init_first_success mcu self w Hr Hm Hpin)
             as (w' & Hrun & _).
           rewrite Hrun. cbn [fst snd].
           exists (mkSFE_CC3000 true). split; [|reflexivity].
           apply exec_calls_keep_ready_object;
             [exact Hp|apply bind_object_same|reflexivity].
        -- assert (Hno : is_init_on x (call x c) = false)
             by (destruct c; try reflexivity; discriminate Hc).
           rewrite Hno. cbn [orb].
           destruct (invoke_idle mcu c self w Hr) as [E _];
             [rewrite Hc; discriminate|].
           apply (IH _ _ x self Hp Hm Hpin'); [|exact Hr].
           rewrite E. apply bind_object_same.
      * assert (Hno : is_init_on a (call x c) = false).
        { destruct c; try reflexivity. cbn [is_init_on].
          apply Nat.eqb_neq. congruence. }
        rewrite Hno. cbn [orb].
        apply (IH _ _ a self Hp Hm Hpin'); [|exact Hr].
        now rewrite bind_object_other.
    + rewrite (exec_call_unbound x c objs w Hx). cbn [fst snd].
      assert (Hno : is_init_on a (call x c) = false).
      { destruct c; try reflexivity. cbn [is_init_on].
        apply Nat.eqb_neq. intros ->. congruence. }
      rewrite Hno. cbn [orb]. now apply (IH _ _ a self).
Qed.

(** While [init] is blocked, nothing is constructed and no object is
    ready, calls change nothing and answer [false], but for
    [connect]. *)
Lemma exec_calls_inert (p : list Stmt) :
  forall (objs : Objects) (w : World D),
    existsb is_construct p = false ->
    init_blocked mcu w ->
    (forall x self, objs x = Some self -> is_initialized_ self = false) ->
    snd (runState (exec mcu p objs) w) = w
    /\ (forall x, snd (fst (runState (exec mcu p objs) w)) x = objs x)
    /\ Forall (fun e : Answer => snd e = is_call_connect (snd (fst e)))
         (fst (fst (runState (exec mcu p objs) w))).
Proof.
  induction p as [|s p IH]; intros objs w Hp Hb Hall.
  - repeat split. constructor.
  - cbn [existsb] in Hp. apply orb_false_elim in Hp as [Hs Hp].
    rewrite exec_cons. cbn [fst snd].
    destruct s as [x i e c|x c]; [discriminate Hs|].
    destruct (objs x) as [selfx|] eqn:Hx.
    + rewrite (exec_call x c objs selfx w Hx).
      pose proof (Hall x selfx Hx) as Hr.
      rewrite (invoke_blocked mcu c selfx w Hr
                 (init_blocked_fails selfx w Hb Hr)).
      cbn [fst snd].
      assert (Hsame : forall y, bind_object objs x selfx y = objs y).
      { intros y. destruct (Nat.eq_dec y x) as [->|Hne].
        - now rewrite bind_object_same.
        - now rewrite bind_object_other. }
      destruct (IH (bind_object objs x selfx) w Hp Hb) as (Hw & Ho & Hl).
      { intros y self Hy. rewrite Hsame in Hy. eauto. }
      split; [exact Hw|]. split.
      * intros y. now rewrite Ho, Hsame.
      * constructor; [reflexivity|exact Hl].
    + rewrite (exec_call_unbound x c objs w Hx). cbn [fst snd app].
      now apply IH.
Qed.

End SeveralFacts.

(** * The specification's claims *)

(** C1.  [connect] is a stub: whatever the SSID, the password and the
    security type, and whatever the object and the world look like
    (ready or not), it answers [true] and hands back the object and the
    world exactly as they were: no HAL call, no driver call, no global
    and no member written. *)
Theorem connect_is_a_stub {D : Type} `{Driver D}
  (self : SFE_CC3000) (ssid password : string) (sec : uint8_t)
  (w : World D) :
  runState (connect self ssid password sec) w = ((true, self), w).
Proof. reflexivity. Qed.

(** C2, as amended.  An object constructed with an interrupt pin other
    than 2 and 3 does not get through [init] as long as no object is
    constructed after it: whatever the program did before, and
    whatever is called afterwards on this or on other objects, the
    object is not ready, and [init] on it answers [false] and leaves
    it, and the world, as they are. *)
Theorem init_rejects_other_pins_until_next_construction (mcu : MCU)
  {D : Type} `{Driver D}
  (before rest : list Stmt) (a : nat) (int_pin en_pin cs_pin : uint8_t)
  (objs0 : Objects) (w0 : World D) :
  int_pin <> 2 -> int_pin <> 3 ->
  existsb is_construct rest = false ->
  exists self,
    snd (fst (runState
                (exec mcu
                   (before ++ construct a int_pin en_pin cs_pin :: rest)
                   objs0) w0)) a = Some self
    /\ is_initialized_ self = false
    /\ runState (init mcu self)
         (snd (runState
                 (exec mcu
                    (before ++ construct a int_pin en_pin cs_pin :: rest)
                    objs0) w0))
       = ((false, self),
          snd (runState
                 (exec mcu
                    (before ++ construct a int_pin en_pin cs_pin :: rest)
                    objs0) w0)).
Proof.
  intros N2 N3 Hrest.
  destruct (exec_app mcu before (construct a int_pin en_pin cs_pin :: rest)
              objs0 w0) as [Eo Ew].
  rewrite Eo, Ew. clear Eo Ew.
  rewrite exec_cons, exec_construct. cbn [fst snd].
  set (objs1 := bind_object _ a _).
  set (w1 := mkWorld _ _ _ _ _ _ _).
  exists (mkSFE_CC3000 false). split; [|split; [reflexivity|]].
  - apply exec_calls_keep_blocked_object;
      [exact Hrest|right; now split|apply bind_object_same|reflexivity].
  - apply init_other_pin; [reflexivity| |];
      now rewrite (exec_calls_keep_int_pin mcu rest objs1 w1 Hrest).
Qed.

(** C3.  [init] is idempotent after success: once an [init] has
    answered [true], every later [init] on that object (after any
    further calls, and in whatever world they were made) answers
    [true] and leaves the object and the whole world as they are, so
    no pin, SPI, driver or delay call is added to the trace. *)
Theorem init_idempotent_after_success (mcu : MCU)
  {D : Type} `{Driver D}
  (self : SFE_CC3000) (w : World D) (self' : SFE_CC3000) (w' : World D) :
  runState (init mcu self) w = ((true, self'), w') ->
  forall (cs : list Call) (w1 : World D),
    runState (init mcu (fst (runState (invoke_all mcu cs self') w1)))
             (snd (runState (invoke_all mcu cs self') w1))
    = ((true, fst (runState (invoke_all mcu cs self') w1)),
       snd (runState (invoke_all mcu cs self') w1)).
Proof.
  intros Hrun cs w1.
  pose proof (init_true_ready mcu _ _ _ _ Hrun) as Hr.
  apply init_when_ready.
  now rewrite (invoke_all_when_ready mcu cs self' w1 Hr).
Qed.

(** C4.  On an object that is not ready, [getFirmwareVersion] and
    [getMacAddress] answer [false] and give back the buffer, the object
    and the world untouched: the driver has not been called. *)
Theorem queries_fail_before_init {D : Type} `{Driver D}
  (self : SFE_CC3000) (buf : list Z) (w : World D) :
  is_initialized_ self = false ->
  runState (getFirmwareVersion self buf) w = ((false, buf, self), w)
  /\ runState (getMacAddress self buf) w = ((false, buf, self), w).
Proof.
  intros Hr. split.
  - now apply getFirmwareVersion_not_ready.
  - now apply getMacAddress_not_ready.
Qed.

(** C5.  On a ready object, [getFirmwareVersion] answers [true] exactly
    when the driver's firmware-version query returns status 0, and
    [getMacAddress] answers [true] exactly when the driver's
    MAC-address query returns status 0. *)
Theorem queries_propagate_driver_status {D : Type} `{Driver D}
  (self : SFE_CC3000) (buf : list Z) (w : World D) :
  is_initialized_ self = true ->
  (fst (fst (fst (runState (getFirmwareVersion self buf) w))) = true
   <-> fst (fst (drv_sp_version (driver w))) = 0)
  /\ (fst (fst (fst (runState (getMacAddress self buf) w))) = true
      <-> fst (fst (drv_mac_address (driver w))) = 0).
Proof.
  intros Hr.
  rewrite (getFirmwareVersion_ready self buf w Hr).
  rewrite (getMacAddress_ready self buf w Hr).
  cbn [fst]. unfold CC3000_SUCCESS. rewrite !Z.eqb_eq. tauto.
Qed.

(** C6.  Over the whole life of an object (its construction followed by
    any sequence of calls): if [is_initialized_] is true at the end,
    then the sequence contains an [init], made while the flag was still
    false, that answered [true] after adding the complete bring-up
    sequence to the trace; and once the flag is true, no further calls
    ([init], [getFirmwareVersion], [getMacAddress], [connect]) make it
    false again. *)
Theorem ready_only_by_bring_up_and_for_good (mcu : MCU)
  {D : Type} `{Driver D}
  (int_pin en_pin cs_pin : uint8_t) (cs : list Call) (w0 : World D) :
  (is_initialized_ (fst (lifetime mcu int_pin en_pin cs_pin cs w0)) = true ->
   exists pre post before w',
     cs = pre ++ call_init :: post
     /\ before = lifetime mcu int_pin en_pin cs_pin pre w0
     /\ is_initialized_ (fst before) = false
     /\ runState (init mcu (fst before)) (snd before)
        = ((true, mkSFE_CC3000 true), w')
     /\ trace w'
        = trace (snd before) ++
          bring_up_events (g_int_pin (snd before)) (g_en_pin (snd before))
            (g_cs_pin (snd before))
            [ cc3000AsyncCallback; sendFirmwarePatch; sendDriverPatch;
              sendBootLoaderPatch; readWlanInterruptPin;
              enableWlanInterrupt; disableWlanInterrupt; writeWlanPin ])
  /\ (is_initialized_ (fst (lifetime mcu int_pin en_pin cs_pin cs w0)) = true ->
      forall more : list Call,
        is_initialized_
          (fst (lifetime mcu int_pin en_pin cs_pin (cs ++ more) w0)) = true).
Proof.
  rewrite lifetime_run. split.
  - intros Hend.
    destruct (ready_has_cause mcu cs (mkSFE_CC3000 false) _ eq_refl Hend)
      as (pre & post & Hcs & Hpre & w' & Hrun & Htr).
    exists pre, post, (lifetime mcu int_pin en_pin cs_pin pre w0), w'.
    rewrite lifetime_run. repeat split; assumption.
  - intros Hend more. rewrite lifetime_run, invoke_all_app.
    now rewrite invoke_all_when_ready.
Qed.

(** C7, as amended.  A first [init] that passes the checks (object not
    ready, supported target, interrupt line on pin 2 or 3) answers
    [true], leaves the object ready, and adds to the trace exactly
    these calls in this order: the interrupt pin as input, the enable
    and chip-select pins as outputs, both driven low; SPI begin, data
    mode 1, most significant bit first, clock divider 2; [wlan_init]
    with its eight callbacks; a delay of 100; [wlan_start(0)]. *)
Theorem init_bring_up_order (mcu : MCU) {D : Type} `{Driver D}
  (self : SFE_CC3000) (w : World D) :
  is_initialized_ self = false ->
  supported_mcu mcu = true ->
  g_int_pin w = 2 \/ g_int_pin w = 3 ->
  exists w',
    runState (init mcu self) w = ((true, mkSFE_CC3000 true), w')
    /\ trace w' = trace w ++
         [ pinMode (g_int_pin w) INPUT;
           pinMode (g_en_pin w) OUTPUT;
           pinMode (g_cs_pin w) OUTPUT;
           digitalWrite (g_en_pin w) LOW;
           digitalWrite (g_cs_pin w) LOW;
           SPI_begin;
           SPI_setDataMode SPI_MODE1;
           SPI_setBitOrder MSBFIRST;
           SPI_setClockDivider SPI_CLOCK_DIV2;
           wlan_init [ cc3000AsyncCallback; sendFirmwarePatch;
                       sendDriverPatch; sendBootLoaderPatch;
                       readWlanInterruptPin; enableWlanInterrupt;
                       disableWlanInterrupt; writeWlanPin ];
           delay 100;
           wlan_start 0 ]
    /\ List.length [ cc3000AsyncCallback; sendFirmwarePatch;
                     sendDriverPatch; sendBootLoaderPatch;
                     readWlanInterruptPin; enableWlanInterrupt;
                     disableWlanInterrupt; writeWlanPin ] = 8%nat.
Proof.
  intros Hr Hm Hp.
  destruct (init_first_success mcu self w Hr Hm Hp) as (w' & Hrun & Htr & _).
  exists w'. repeat split; assumption.
Qed.

(** C8.  On a ready object, when the driver reports success,
    [getFirmwareVersion] answers [true] with exactly two bytes stored
    in the caller's buffer, the major number at index 0 and the minor
    number at index 1, and [getMacAddress] answers [true] with exactly
    six bytes stored; the rest of the buffer is as it was. *)
Theorem queries_deliver_two_and_six_bytes {D : Type} `{Driver D}
  (self : SFE_CC3000) (fw_ver mac_addr : list Z) (w : World D) :
  is_initialized_ self = true ->
  (fst (fst (drv_sp_version (driver w))) = CC3000_SUCCESS ->
   (2 <= List.length fw_ver)%nat ->
   exists major minor,
     snd (fst (drv_sp_version (driver w))) = [major; minor]
     /\ fst (runState (getFirmwareVersion self fw_ver) w)
        = (true, major :: minor :: skipn 2 fw_ver, self)
     /\ List.length (major :: minor :: skipn 2 fw_ver) = List.length fw_ver)
  /\ (fst (fst (drv_mac_address (driver w))) = CC3000_SUCCESS ->
      (6 <= List.length mac_addr)%nat ->
      exists b0 b1 b2 b3 b4 b5,
        snd (fst (drv_mac_address (driver w))) = [b0; b1; b2; b3; b4; b5]
        /\ fst (runState (getMacAddress self mac_addr) w)
           = (true, b0 :: b1 :: b2 :: b3 :: b4 :: b5 :: skipn 6 mac_addr,
              self)
        /\ List.length (b0 :: b1 :: b2 :: b3 :: b4 :: b5 :: skipn 6 mac_addr)
           = List.length mac_addr).
Proof.
  intros Hr. split.
  - intros Hst Hlen.
    pose proof (drv_sp_version_len (driver w) Hst) as Hb.
    rewrite (getFirmwareVersion_ready self fw_ver w Hr), Hst.
    destruct (snd (fst (drv_sp_version (driver w))))
      as [|major [|minor [|x l]]]; try discriminate Hb.
    exists major, minor. repeat split.
    cbn [List.length]. rewrite length_skipn. lia.
  - intros Hst Hlen.
    pose proof (drv_mac_address_len (driver w) Hst) as Hb.
    rewrite (getMacAddress_ready self mac_addr w Hr), Hst.
    destruct (snd (fst (drv_mac_address (driver w))))
      as [|b0 [|b1 [|b2 [|b3 [|b4 [|b5 [|x l]]]]]]]; try discriminate Hb.
    exists b0, b1, b2, b3, b4, b5. repeat split.
    cbn [List.length]. rewrite length_skipn. lia.
Qed.

(** C9, as amended.  On a supported target, for an object constructed
    with interrupt pin 2 or 3, and as long as no object is constructed
    after it, the first [init] on it (whatever the program did before,
    and whatever else was called since on this or on other objects)
    answers [true] and leaves [is_initialized_] true.  The driver is
    arbitrary: nothing [wlan_init] or [wlan_start] does is looked
    at. *)
Theorem first_init_succeeds_until_next_construction (mcu : MCU)
  {D : Type} `{Driver D}
  (before rest : list Stmt) (a : nat) (int_pin en_pin cs_pin : uint8_t)
  (objs0 : Objects) (w0 : World D) :
  supported_mcu mcu = true ->
  int_pin = 2 \/ int_pin = 3 ->
  existsb is_construct rest = false ->
  existsb (is_init_on a) rest = false ->
  exists self,
    snd (fst (runState
                (exec mcu
                   (before ++ construct a int_pin en_pin cs_pin :: rest)
                   objs0) w0)) a = Some self
    /\ fst (fst (runState (init mcu self)
         (snd (runState
                 (exec mcu
                    (before ++ construct a int_pin en_pin cs_pin :: rest)
                    objs0) w0)))) = true
    /\ is_initialized_
         (snd (fst (runState (init mcu self)
            (snd (runState
                    (exec mcu
                       (before ++ construct a int_pin en_pin cs_pin :: rest)
                       objs0) w0))))) = true.
Proof.
  intros Hm Hpin Hrest Hfirst.
  destruct (exec_app mcu before (construct a int_pin en_pin cs_pin :: rest)
              objs0 w0) as [Eo Ew].
  rewrite Eo, Ew. clear Eo Ew.
  rewrite exec_cons, exec_construct. cbn [fst snd].
  set (objs1 := bind_object _ a _).
  set (w1 := mkWorld _ _ _ _ _ _ _).
  exists (mkSFE_CC3000 false). split.
  - apply exec_calls_keep_unready_object;
      [exact Hrest|exact Hfirst|apply bind_object_same|reflexivity].
  - destruct (init_first_success mcu (mkSFE_CC3000 false)
                (snd (runState (exec mcu rest objs1) w1)) eq_refl Hm)
      as (w' & Hrun & _).
    + now rewrite (exec_calls_keep_int_pin mcu rest objs1 w1 Hrest).
    + rewrite Hrun. split; reflexivity.
Qed.

(** C10.  Whenever [init] answers [false], the object and the world
    come back exactly as they went in: no pin mode, no pin write, no
    SPI call, no driver call and no delay is in the trace, the globals
    and the driver are untouched, and [is_initialized_] is unchanged. *)
Theorem failed_init_has_no_effect (mcu : MCU) {D : Type} `{Driver D}
  (self : SFE_CC3000) (w : World D) (self' : SFE_CC3000) (w' : World D) :
  runState (init mcu self) w = ((false, self'), w') ->
  self' = self /\ w' = w.
Proof.
  intros Hrun. destruct (is_initialized_ self) eqn:Hr.
  - rewrite (init_when_ready mcu self w Hr) in Hrun. discriminate.
  - destruct (init_cases mcu self w Hr) as [Hfail|(w2 & Hok & _)].
    + rewrite Hfail in Hrun. injection Hrun as <- <-. split; reflexivity.
    + rewrite Hok in Hrun. discriminate.
Qed.

(** * Concrete runs *)

(** The constructor only writes the three pin globals. *)
Example new_on_shield :
  runState (SFE_CC3000_new 2 7 10) boot = (fresh, shield).
Proof. reflexivity. Qed.

(** The shield on an ATmega328P: [init] goes through and the driver has
    been entered twice. *)
Example init_on_shield :
  runState (init AVR_ATmega328P fresh) shield
  = ((true, ready),
     mkWorld 2 0 7 10 0
       [ pinMode 2 INPUT; pinMode 7 OUTPUT; pinMode 10 OUTPUT;
         digitalWrite 7 LOW; digitalWrite 10 LOW;
         SPI_begin; SPI_setDataMode SPI_MODE1; SPI_setBitOrder MSBFIRST;
         SPI_setClockDivider SPI_CLOCK_DIV2;
         wlan_init [ cc3000AsyncCallback; sendFirmwarePatch;
                     sendDriverPatch; sendBootLoaderPatch;
                     readWlanInterruptPin; enableWlanInterrupt;
                     disableWlanInterrupt; writeWlanPin ];
         delay 100; wlan_start 0 ]
       2%nat).
Proof. reflexivity. Qed.

(** Interrupt line on pin 3: interrupt number 1. *)
Example init_on_pin_3 :
  g_int_num (snd (runState (init AVR_ATmega168 fresh)
                           (mkWorld 3 0 7 10 0 [] 0%nat))) = 1.
Proof. reflexivity. Qed.

Example init_on_pin_5 :
  runState (init AVR_ATmega328P fresh) breakout_on_pin_5
  = ((false, fresh), breakout_on_pin_5).
Proof. reflexivity. Qed.

Example init_on_other_mcu :
  runState (init OtherMCU fresh) shield
  = ((false, fresh), shield).
Proof. reflexivity. Qed.

(** A driver that answers with status 0, and one that answers 6. *)
Example firmware_version_read :
  fst (runState (getFirmwareVersion ready [0; 0; 99])
                shield)
  = (true, [1; 24; 99], ready).
Proof. reflexivity. Qed.

Example firmware_version_refused :
  fst (fst (fst (runState
    (getFirmwareVersion (H := chip_refusing) ready [0; 0]) shield)))
  = false.
Proof. reflexivity. Qed.

Example mac_address_read :
  fst (runState (getMacAddress ready [0; 0; 0; 0; 0; 0])
                shield)
  = (true, [8; 0; 40; 1; 2; 3], ready).
Proof. reflexivity. Qed.

(** The pins are process-wide: [init] looks at the interrupt pin of the
    object constructed last, whichever object it is called on. *)
Example pins_are_shared :
  runState (a <- SFE_CC3000_new 5 7 10 ;;
            b <- SFE_CC3000_new 2 7 10 ;;
            r <- init AVR_ATmega328P a ;;
            ret (fst r)) boot
  = (true, snd (runState (init AVR_ATmega328P fresh)
                         shield)).
Proof. vm_compute. reflexivity. Qed.

(** The same in program form, and the other way round: a later
    construction with pin 5 closes [init] for an object constructed
    with pin 2. *)
Example later_pin_2_opens_init :
  fst (fst (runState
              (exec AVR_ATmega328P
                 [construct 0 5 7 10; construct 1 2 7 10;
                  call 0 call_init] no_objects) boot))
  = [(0%nat, call_init, true)]
  /\ snd (fst (runState
                 (exec AVR_ATmega328P
                    [construct 0 5 7 10; construct 1 2 7 10;
                     call 0 call_init] no_objects) boot)) 0%nat
     = Some ready.
Proof. split; vm_compute; reflexivity. Qed.

Example later_pin_5_closes_init :
  fst (fst (runState
              (exec AVR_ATmega328P
                 [construct 0 2 7 10; construct 1 5 8 9;
                  call 0 call_init] no_objects) boot))
  = [(0%nat, call_init, false)]
  /\ snd (fst (runState
                 (exec AVR_ATmega328P
                    [construct 0 2 7 10; construct 1 5 8 9;
                     call 0 call_init] no_objects) boot)) 0%nat
     = Some fresh.
Proof. split; vm_compute; reflexivity. Qed.

(** * The claims at concrete inputs *)

(** C2 (amended) on the breakout board wired to pin 5, declared after
    the shield has been brought up, and with calls on both since. *)
Lemma init_rejects_other_pins_until_next_construction_witness :
  exists self,
    snd (fst (runState
                (exec AVR_ATmega328P
                   ([construct 0 2 7 10; call 0 call_init]
                      ++ construct 1 5 7 10
                      :: [call 1 call_init;
                          call 0 (call_getFirmwareVersion [0; 0]);
                          call 1 (call_connect "ssid" "password" 0)])
                   no_objects) boot)) 1%nat = Some self
    /\ is_initialized_ self = false
    /\ runState (init AVR_ATmega328P self)
         (snd (runState
                 (exec AVR_ATmega328P
                    ([construct 0 2 7 10; call 0 call_init]
                       ++ construct 1 5 7 10
                       :: [call 1 call_init;
                           call 0 (call_getFirmwareVersion [0; 0]);
                           call 1 (call_connect "ssid" "password" 0)])
                    no_objects) boot))
       = ((false, self),
          snd (runState
                 (exec AVR_ATmega328P
                    ([construct 0 2 7 10; call 0 call_init]
                       ++ construct 1 5 7 10
                       :: [call 1 call_init;
                           call 0 (call_getFirmwareVersion [0; 0]);
                           call 1 (call_connect "ssid" "password" 0)])
                    no_objects) boot)).
Proof.
  apply (init_rejects_other_pins_until_next_construction AVR_ATmega328P
           [construct 0 2 7 10; call 0 call_init]
           [call 1 call_init;
            call 0 (call_getFirmwareVersion [0; 0]);
            call 1 (call_connect "ssid" "password" 0)]
           1%nat 5 7 10 no_objects boot).
  - discriminate.
  - discriminate.
  - reflexivity.
Defined.

(** C2 as the specification words it fails in
    [SFE_CC3000 a(5, 7, 10); SFE_CC3000 b(2, 7, 10); a.init();]:
    the object constructed with pin 5 gets through [init]. *)
Lemma init_accepts_pin_5_after_later_construction :
  ~ exists self,
      fst (fst (runState
                  (exec AVR_ATmega328P
                     [construct 0 5 7 10; construct 1 2 7 10;
                      call 0 call_init] no_objects) boot))
      = [(0%nat, call_init, false)]
      /\ snd (fst (runState
                     (exec AVR_ATmega328P
                        [construct 0 5 7 10; construct 1 2 7 10;
                         call 0 call_init] no_objects) boot)) 0%nat
         = Some self
      /\ is_initialized_ self = false.
Proof.
  intros (self & Hanswer & _).
  vm_compute in Hanswer. discriminate Hanswer.
Qed.

(** C3 on the shield: a second [init], after a firmware query. *)
Lemma init_idempotent_after_success_witness :
  runState (init AVR_ATmega328P fresh) shield = ((true, ready), shield_up)
  /\ runState
       (init AVR_ATmega328P
          (fst (runState (invoke_all AVR_ATmega328P
                            [call_getFirmwareVersion [0; 0]] ready)
                         shield_up)))
       (snd (runState (invoke_all AVR_ATmega328P
                         [call_getFirmwareVersion [0; 0]] ready)
                      shield_up))
     = ((true,
         fst (runState (invoke_all AVR_ATmega328P
                          [call_getFirmwareVersion [0; 0]] ready)
                       shield_up)),
        snd (runState (invoke_all AVR_ATmega328P
                         [call_getFirmwareVersion [0; 0]] ready)
                      shield_up)).
Proof.
  split; [vm_compute; reflexivity|].
  refine (init_idempotent_after_success AVR_ATmega328P
            fresh shield ready shield_up _
            [call_getFirmwareVersion [0; 0]] shield_up).
  vm_compute. reflexivity.
Defined.

(** C4 at power-on. *)
Lemma queries_fail_before_init_witness :
  runState (getFirmwareVersion fresh [0; 0]) boot
  = ((false, [0; 0], fresh), boot)
  /\ runState (getMacAddress fresh [0; 0]) boot
     = ((false, [0; 0], fresh), boot).
Proof.
  apply (queries_fail_before_init fresh [0; 0] boot).
  reflexivity.
Defined.

(** C5 with a driver that answers status 6 to every query. *)
Lemma queries_propagate_driver_status_witness :
  (fst (fst (fst (runState
     (getFirmwareVersion (H := chip_refusing) ready [0; 0]) shield))) = true
   <-> fst (fst (drv_sp_version (Driver := chip_refusing) (driver shield))) = 0)
  /\ (fst (fst (fst (runState
        (getMacAddress (H := chip_refusing) ready [0; 0]) shield))) = true
      <-> fst (fst (drv_mac_address (Driver := chip_refusing)
                      (driver shield))) = 0).
Proof.
  apply (queries_propagate_driver_status (H := chip_refusing)
           ready [0; 0] shield).
  reflexivity.
Defined.

(** C7 (amended) on the shield. *)
Lemma init_bring_up_order_witness :
  exists w',
    runState (init AVR_ATmega328P fresh) shield
    = ((true, mkSFE_CC3000 true), w')
    /\ trace w' = trace shield ++
         [ pinMode (g_int_pin shield) INPUT;
           pinMode (g_en_pin shield) OUTPUT;
           pinMode (g_cs_pin shield) OUTPUT;
           digitalWrite (g_en_pin shield) LOW;
           digitalWrite (g_cs_pin shield) LOW;
           SPI_begin;
           SPI_setDataMode SPI_MODE1;
           SPI_setBitOrder MSBFIRST;
           SPI_setClockDivider SPI_CLOCK_DIV2;
           wlan_init [ cc3000AsyncCallback; sendFirmwarePatch;
                       sendDriverPatch; sendBootLoaderPatch;
                       readWlanInterruptPin; enableWlanInterrupt;
                       disableWlanInterrupt; writeWlanPin ];
           delay 100;
           wlan_start 0 ]
    /\ List.length [ cc3000AsyncCallback; sendFirmwarePatch;
                     sendDriverPatch; sendBootLoaderPatch;
                     readWlanInterruptPin; enableWlanInterrupt;
                     disableWlanInterrupt; writeWlanPin ] = 8%nat.
Proof.
  apply (init_bring_up_order AVR_ATmega328P fresh shield).
  - reflexivity.
  - reflexivity.
  - left. reflexivity.
Defined.

(** C7 as the specification words it, with seven callbacks, fails on
    the shield: the [wlan_init] in the trace carries eight. *)
Lemma init_bring_up_order_seven_callbacks_fails :
  ~ exists cbs w',
      List.length cbs = 7%nat
      /\ runState (init AVR_ATmega328P fresh) shield
         = ((true, mkSFE_CC3000 true), w')
      /\ trace w' = trace shield ++ bring_up_events 2 7 10 cbs.
Proof.
  intros (cbs & w' & Hlen & Hrun & Htr).
  vm_compute in Hrun. injection Hrun as <-.
  vm_compute in Htr. injection Htr as <-.
  discriminate Hlen.
Qed.

(** C6 on the shield, over a life of three calls. *)
Lemma ready_only_by_bring_up_and_for_good_witness :
  is_initialized_
    (fst (lifetime AVR_ATmega328P 2 7 10
            [call_connect "ssid" "password" 0; call_init;
             call_getMacAddress [0; 0; 0; 0; 0; 0]] boot)) = true
  /\ forall more : list Call,
       is_initialized_
         (fst (lifetime AVR_ATmega328P 2 7 10
                 ([call_connect "ssid" "password" 0; call_init;
                   call_getMacAddress [0; 0; 0; 0; 0; 0]] ++ more) boot))
       = true.
Proof.
  split; [vm_compute; reflexivity|].
  apply (ready_only_by_bring_up_and_for_good AVR_ATmega328P 2 7 10
           [call_connect "ssid" "password" 0; call_init;
            call_getMacAddress [0; 0; 0; 0; 0; 0]] boot).
  vm_compute. reflexivity.
Defined.

(** C8 with the chip in good health: firmware 1.24 in a three-byte
    buffer, the address in a six-byte buffer. *)
Lemma queries_deliver_two_and_six_bytes_witness :
  (fst (fst (drv_sp_version (driver shield_up))) = CC3000_SUCCESS ->
   (2 <= List.length [0; 0; 99])%nat ->
   exists major minor,
     snd (fst (drv_sp_version (driver shield_up))) = [major; minor]
     /\ fst (runState (getFirmwareVersion ready [0; 0; 99]) shield_up)
        = (true, major :: minor :: skipn 2 [0; 0; 99], ready)
     /\ List.length (major :: minor :: skipn 2 [0; 0; 99])
        = List.length [0; 0; 99])
  /\ (fst (fst (drv_mac_address (driver shield_up))) = CC3000_SUCCESS ->
      (6 <= List.length [0; 0; 0; 0; 0; 0])%nat ->
      exists b0 b1 b2 b3 b4 b5,
        snd (fst (drv_mac_address (driver shield_up)))
        = [b0; b1; b2; b3; b4; b5]
        /\ fst (runState (getMacAddress ready [0; 0; 0; 0; 0; 0]) shield_up)
           = (true,
              b0 :: b1 :: b2 :: b3 :: b4 :: b5
                 :: skipn 6 [0; 0; 0; 0; 0; 0],
              ready)
        /\ List.length (b0 :: b1 :: b2 :: b3 :: b4 :: b5
                           :: skipn 6 [0; 0; 0; 0; 0; 0])
           = List.length [0; 0; 0; 0; 0; 0]).
Proof.
  apply (queries_deliver_two_and_six_bytes ready
           [0; 0; 99] [0; 0; 0; 0; 0; 0] shield_up).
  reflexivity.
Defined.

(** C9 (amended) on the shield, declared after a breakout board on pin
    5, with a query on it and calls on the other object before its
    first [init]. *)
Lemma first_init_succeeds_until_next_construction_witness :
  exists self,
    snd (fst (runState
                (exec AVR_ATmega328P
                   ([construct 0 5 7 10; call 0 call_init]
                      ++ construct 1 2 7 10
                      :: [call 1 (call_getFirmwareVersion [0; 0]);
                          call 0 call_init])
                   no_objects) boot)) 1%nat = Some self
    /\ fst (fst (runState (init AVR_ATmega328P self)
         (snd (runState
                 (exec AVR_ATmega328P
                    ([construct 0 5 7 10; call 0 call_init]
                       ++ construct 1 2 7 10
                       :: [call 1 (call_getFirmwareVersion [0; 0]);
                           call 0 call_init])
                    no_objects) boot)))) = true
    /\ is_initialized_
         (snd (fst (runState (init AVR_ATmega328P self)
            (snd (runState
                    (exec AVR_ATmega328P
                       ([construct 0 5 7 10; call 0 call_init]
                          ++ construct 1 2 7 10
                          :: [call 1 (call_getFirmwareVersion [0; 0]);
                              call 0 call_init])
                       no_objects) boot))))) = true.
Proof.
  apply (first_init_succeeds_until_next_construction AVR_ATmega328P
           [construct 0 5 7 10; call 0 call_init]
           [call 1 (call_getFirmwareVersion [0; 0]); call 0 call_init]
           1%nat 2 7 10 no_objects boot).
  - reflexivity.
  - left. reflexivity.
  - reflexivity.
  - reflexivity.
Defined.

(** C9 as the specification words it fails in
    [SFE_CC3000 a(2, 7, 10); SFE_CC3000 b(5, 8, 9); a.init();]:
    the first [init] of the object constructed with pin 2 answers
    [false] and leaves it not ready. *)
Lemma first_init_fails_on_pin_2_after_later_construction :
  ~ exists self,
      fst (fst (runState
                  (exec AVR_ATmega328P
                     [construct 0 2 7 10; construct 1 5 8 9;
                      call 0 call_init] no_objects) boot))
      = [(0%nat, call_init, true)]
      /\ snd (fst (runState
                     (exec AVR_ATmega328P
                        [construct 0 2 7 10; construct 1 5 8 9;
                         call 0 call_init] no_objects) boot)) 0%nat
         = Some self
      /\ is_initialized_ self = true.
Proof.
  intros (self & Hanswer & _).
  vm_compute in Hanswer. discriminate Hanswer.
Qed.

(** C10 on a target that is not supported. *)
Lemma failed_init_has_no_effect_witness :
  runState (init OtherMCU fresh) shield = ((false, fresh), shield)
  /\ fresh = fresh /\ shield = shield.
Proof.
  split; [vm_compute; reflexivity|].
  apply (failed_init_has_no_effect OtherMCU fresh shield fresh shield).
  vm_compute. reflexivity.
Defined.



(** * Beyond the claims: further properties of the wrapper *)

(** X1.  The constructor does no I/O and touches nothing but the three
    pin globals; and since these are process-wide, a later construction
    overrides an earlier one: [init] on the object constructed first
    behaves exactly as [init] on the object constructed last. *)
Theorem later_construction_overrides (mcu : MCU) {D : Type} `{Driver D}
  (int1 en1 cs1 int2 en2 cs2 : uint8_t) (w : World D) :
  runState (SFE_CC3000_new int1 en1 cs1) w
  = (mkSFE_CC3000 false,
     mkWorld int1 (g_int_num w) en1 cs1 (g_debug_interrupt w)
             (trace w) (driver w))
  /\ runState (a <- SFE_CC3000_new int1 en1 cs1 ;;
               b <- SFE_CC3000_new int2 en2 cs2 ;;
               init mcu a) w
     = runState (b <- SFE_CC3000_new int2 en2 cs2 ;;
                 init mcu b) w.
Proof.
  split; [apply new_run|].
  cbn [bind Monad_state runState]. rewrite !new_run. reflexivity.
Qed.

(** X2.  What [init] answers is the readiness it leaves behind, and it
    is [true] exactly when the object was ready already, or the target
    is supported and the interrupt pin global is 2 or 3. *)
Theorem init_answer_is_readiness (mcu : MCU) {D : Type} `{Driver D}
  (self : SFE_CC3000) (w : World D) :
  fst (fst (runState (init mcu self) w))
  = is_initialized_ (snd (fst (runState (init mcu self) w)))
  /\ fst (fst (runState (init mcu self) w))
     = is_initialized_ self
       || (supported_mcu mcu
           && ((g_int_pin w =? 2) || (g_int_pin w =? 3))).
Proof.
  destruct (is_initialized_ self) eqn:Hr.
  - rewrite (init_when_ready mcu self w Hr). cbn [fst snd orb].
    now rewrite Hr.
  - destruct (init_outcome mcu self w Hr)
      as [[Hrun Hwhy]|(Hm & Hp & Hrun)]; rewrite Hrun; cbn [fst snd orb].
    + rewrite Hr. split; [reflexivity|].
      destruct Hwhy as [Hm|[N2 N3]].
      * now rewrite Hm.
      * rewrite (proj2 (Z.eqb_neq _ _) N2), (proj2 (Z.eqb_neq _ _) N3).
        now rewrite andb_false_r.
    + rewrite Hm. split; [reflexivity|].
      destruct Hp as [E|E]; rewrite E; reflexivity.
Qed.

(** X3.  A bring-up records the interrupt number that goes with the
    pin (0 for pin 2, 1 for pin 3), leaves the three pin globals as
    they are, and has entered the driver twice: [wlan_init] with the
    callbacks first, [wlan_start(0)] on the state that left. *)
Theorem bring_up_interrupt_number_and_driver (mcu : MCU)
  {D : Type} `{Driver D} (self : SFE_CC3000) (w : World D) :
  is_initialized_ self = false ->
  supported_mcu mcu = true ->
  g_int_pin w = 2 \/ g_int_pin w = 3 ->
  g_int_num (snd (runState (init mcu self) w))
  = (if g_int_pin w =? 2 then 0 else 1)
  /\ g_int_pin (snd (runState (init mcu self) w)) = g_int_pin w
  /\ g_en_pin (snd (runState (init mcu self) w)) = g_en_pin w
  /\ g_cs_pin (snd (runState (init mcu self) w)) = g_cs_pin w
  /\ driver (snd (runState (init mcu self) w))
     = drv_wlan_start 0 (drv_wlan_init init_callbacks (driver w)).
Proof.
  intros Hr Hm Hp.
  destruct (init_outcome mcu self w Hr)
    as [[_ [Hm'|[N2 N3]]]|(_ & _ & Hrun)].
  - congruence.
  - destruct Hp; contradiction.
  - rewrite Hrun. cbn [fst snd g_int_num g_int_pin g_en_pin g_cs_pin driver].
    repeat split. destruct Hp as [E|E]; rewrite E; reflexivity.
Qed.

(** X4.  No call, and no sequence of calls, writes a pin global or
    takes anything out of the trace; the interrupt number changes only
    when the object becomes ready in the course of the calls, and is
    then the one that goes with the interrupt pin. *)
Theorem calls_keep_pins_and_trace (mcu : MCU) {D : Type} `{Driver D}
  (cs : list Call) (self : SFE_CC3000) (w : World D) :
  g_int_pin (snd (runState (invoke_all mcu cs self) w)) = g_int_pin w
  /\ g_en_pin (snd (runState (invoke_all mcu cs self) w)) = g_en_pin w
  /\ g_cs_pin (snd (runState (invoke_all mcu cs self) w)) = g_cs_pin w
  /\ g_int_num (snd (runState (invoke_all mcu cs self) w))
     = (if became_ready self (fst (runState (invoke_all mcu cs self) w))
        then g_int_pin w - 2 else g_int_num w)
  /\ exists added,
       trace (snd (runState (invoke_all mcu cs self) w))
       = trace w ++ added.
Proof.
  destruct (invoke_all_framed mcu cs self w)
    as (Hi & He & Hc & Hn & _ & added & Ht & _).
  repeat split; try assumption. now exists added.
Qed.

(** X5.  Over the life of an object the driver is initialised and
    started once if the object ends up ready and not at all otherwise:
    however many [init] calls are made, the trace gains exactly one
    [wlan_init] and one [wlan_start], or none. *)
Theorem driver_started_at_most_once (mcu : MCU) {D : Type} `{Driver D}
  (int_pin en_pin cs_pin : uint8_t) (cs : list Call) (w0 : World D) :
  count_events is_wlan_init
    (trace (snd (lifetime mcu int_pin en_pin cs_pin cs w0)))
  = (count_events is_wlan_init (trace w0)
     + Nat.b2n (is_initialized_
                  (fst (lifetime mcu int_pin en_pin cs_pin cs w0))))%nat
  /\ count_events is_wlan_start
       (trace (snd (lifetime mcu int_pin en_pin cs_pin cs w0)))
     = (count_events is_wlan_start (trace w0)
        + Nat.b2n (is_initialized_
                     (fst (lifetime mcu int_pin en_pin cs_pin cs w0))))%nat.
Proof.
  rewrite lifetime_run.
  destruct (invoke_all_framed mcu cs (mkSFE_CC3000 false)
              (mkWorld int_pin (g_int_num w0) en_pin cs_pin
                       (g_debug_interrupt w0) (trace w0) (driver w0)))
    as (_ & _ & _ & _ & _ & added & Ht & Hwi & Hws).
  rewrite Ht, !count_events_app, Hwi, Hws. split; reflexivity.
Qed.

(** X6.  In a program none of whose objects is ready, constructing an
    object on a target that is not supported, or with an interrupt pin
    other than 2 and 3, leaves the library inert until the next
    construction: whatever is called on whatever object, every [init],
    [getFirmwareVersion] and [getMacAddress] answers [false], every
    [connect] answers [true], no object becomes ready, and the world
    keeps the state the constructor left: nothing is added to the
    trace and the driver is never entered. *)
Theorem inert_until_next_construction (mcu : MCU) {D : Type} `{Driver D}
  (a : nat) (int_pin en_pin cs_pin : uint8_t) (rest : list Stmt)
  (objs0 : Objects) (w0 : World D) :
  (forall x self, objs0 x = Some self -> is_initialized_ self = false) ->
  supported_mcu mcu = false \/ (int_pin <> 2 /\ int_pin <> 3) ->
  existsb is_construct rest = false ->
  snd (runState
         (exec mcu (construct a int_pin en_pin cs_pin :: rest) objs0) w0)
  = mkWorld int_pin (g_int_num w0) en_pin cs_pin
            (g_debug_interrupt w0) (trace w0) (driver w0)
  /\ (forall x,
        snd (fst (runState
                    (exec mcu (construct a int_pin en_pin cs_pin :: rest)
                       objs0) w0)) x
        = bind_object objs0 a (mkSFE_CC3000 false) x)
  /\ Forall (fun e : Answer => snd e = is_call_connect (snd (fst e)))
       (fst (fst (runState
                    (exec mcu (construct a int_pin en_pin cs_pin :: rest)
                       objs0) w0))).
Proof.
  intros Hall Hwhy Hrest.
  rewrite exec_cons, exec_construct. cbn [fst snd app].
  apply exec_calls_inert; [exact Hrest|exact Hwhy|].
  intros x self. unfold bind_object.
  destruct (Nat.eqb x a); [now intros [= <-]|apply Hall].
Qed.

(** X7.  On a supported target, for an object constructed with
    interrupt pin 2 or 3, and as long as no object is constructed after
    it, the object is ready at the end of the program exactly when
    [init] has been called on it since; calls on other objects make no
    difference. *)
Theorem ready_iff_init_called_since_construction (mcu : MCU)
  {D : Type} `{Driver D}
  (before rest : list Stmt) (a : nat) (int_pin en_pin cs_pin : uint8_t)
  (objs0 : Objects) (w0 : World D) :
  supported_mcu mcu = true ->
  int_pin = 2 \/ int_pin = 3 ->
  existsb is_construct rest = false ->
  exists self,
    snd (fst (runState
                (exec mcu
                   (before ++ construct a int_pin en_pin cs_pin :: rest)
                   objs0) w0)) a = Some self
    /\ is_initialized_ self = existsb (is_init_on a) rest.
Proof.
  intros Hm Hpin Hrest.
  destruct (exec_app mcu before (construct a int_pin en_pin cs_pin :: rest)
              objs0 w0) as [Eo _].
  rewrite Eo. clear Eo.
  rewrite exec_cons, exec_construct. cbn [fst snd].
  apply (exec_calls_ready_iff_init mcu rest _ _ a (mkSFE_CC3000 false));
    [exact Hrest|exact Hm|exact Hpin|apply bind_object_same|reflexivity].
Qed.

(** X8.  [connect] calls can be struck from any sequence of calls
    without any difference to the object and the world at its end. *)
Theorem connect_calls_can_be_dropped (mcu : MCU) {D : Type} `{Driver D}
  (cs : list Call) (self : SFE_CC3000) (w : World D) :
  runState (invoke_all mcu (filter (fun c => negb (is_call_connect c)) cs)
              self) w
  = runState (invoke_all mcu cs self) w.
Proof.
  revert self w. induction cs as [|c cs IH]; intros self w.
  - reflexivity.
  - cbn [filter]. destruct (is_call_connect c) eqn:Hc; cbn [negb].
    + destruct c; try discriminate Hc.
      rewrite (invoke_all_cons mcu (call_connect ssid password sec) cs).
      apply IH.
    + rewrite !invoke_all_cons. apply IH.
Qed.

(** X9.  After one [init], further [init] calls are of no consequence,
    whether the first one went through or not: striking them from the
    rest of the sequence leaves the final object and world the same. *)
Theorem repeated_init_can_be_dropped (mcu : MCU) {D : Type} `{Driver D}
  (cs : list Call) (self : SFE_CC3000) (w : World D) :
  runState (invoke_all mcu
              (call_init :: filter (fun c => negb (is_call_init c)) cs)
              self) w
  = runState (invoke_all mcu (call_init :: cs) self) w.
Proof.
  rewrite !invoke_all_cons. cbn [invoke].
  destruct (is_initialized_ self) eqn:Hr.
  - rewrite (init_when_ready mcu self w Hr). cbn [fst snd].
    now apply invoke_all_ready_skip_init.
  - destruct (init_outcome mcu self w Hr)
      as [[Hrun _]|(_ & _ & Hrun)]; rewrite Hrun; cbn [fst snd].
    + now rewrite !(invoke_all_blocked mcu _ self w Hr Hrun).
    + now apply invoke_all_ready_skip_init.
Qed.

(** X10.  On a ready object every query goes to the driver, once: over
    any sequence of calls the trace gains as many driver queries as the
    sequence has [getFirmwareVersion] and [getMacAddress] calls, be
    they answered with success or not; nothing is cached and nothing
    is retried. *)
Theorem every_query_reaches_the_driver_once (mcu : MCU)
  {D : Type} `{Driver D}
  (cs : list Call) (self : SFE_CC3000) (w : World D) :
  is_initialized_ self = true ->
  count_events is_nvmem_call
    (trace (snd (runState (invoke_all mcu cs self) w)))
  = (count_events is_nvmem_call (trace w)
     + List.length (filter is_call_query cs))%nat.
Proof.
  intros Hr. revert w. induction cs as [|c cs IH]; intros w.
  - cbn. now rewrite Nat.add_0_r.
  - rewrite invoke_all_cons, (invoke_when_ready mcu c self w Hr), IH.
    destruct c as [|fw_ver|mac_addr|ssid password sec];
      cbn [invoke filter is_call_query List.length].
    + now rewrite (init_when_ready mcu self w Hr).
    + cbn [bind Monad_state runState].
      rewrite (getFirmwareVersion_ready_run self fw_ver w Hr).
      cbn [ret Monad_state runState fst snd trace].
      rewrite count_events_app. cbn. lia.
    + cbn [bind Monad_state runState].
      rewrite (getMacAddress_ready_run self mac_addr w Hr).
      cbn [ret Monad_state runState fst snd trace].
      rewrite count_events_app. cbn. lia.
    + reflexivity.
Qed.

(** * The further properties at concrete inputs *)

(** X3 on the shield. *)
Lemma bring_up_interrupt_number_and_driver_witness :
  g_int_num (snd (runState (init AVR_ATmega328P fresh) shield))
  = (if g_int_pin shield =? 2 then 0 else 1)
  /\ g_int_pin (snd (runState (init AVR_ATmega328P fresh) shield))
     = g_int_pin shield
  /\ g_en_pin (snd (runState (init AVR_ATmega328P fresh) shield))
     = g_en_pin shield
  /\ g_cs_pin (snd (runState (init AVR_ATmega328P fresh) shield))
     = g_cs_pin shield
  /\ driver (snd (runState (init AVR_ATmega328P fresh) shield))
     = drv_wlan_start 0 (drv_wlan_init init_callbacks (driver shield)).
Proof.
  apply (bring_up_interrupt_number_and_driver AVR_ATmega328P fresh shield).
  - reflexivity.
  - reflexivity.
  - left. reflexivity.
Defined.

(** X6 on the breakout board wired to pin 5, with a second object in
    scope. *)
Lemma inert_until_next_construction_witness :
  snd (runState
         (exec AVR_ATmega328P
            (construct 1 5 7 10
               :: [call 1 call_init; call 0 call_init;
                   call 1 (call_getFirmwareVersion [0; 0]);
                   call 0 (call_connect "ssid" "password" 0)])
            (bind_object no_objects 0 fresh)) shield)
  = mkWorld 5 (g_int_num shield) 7 10
            (g_debug_interrupt shield) (trace shield) (driver shield)
  /\ (forall x,
        snd (fst (runState
                    (exec AVR_ATmega328P
                       (construct 1 5 7 10
                          :: [call 1 call_init; call 0 call_init;
                              call 1 (call_getFirmwareVersion [0; 0]);
                              call 0 (call_connect "ssid" "password" 0)])
                       (bind_object no_objects 0 fresh)) shield)) x
        = bind_object (bind_object no_objects 0 fresh) 1
            (mkSFE_CC3000 false) x)
  /\ Forall (fun e : Answer => snd e = is_call_connect (snd (fst e)))
       (fst (fst (runState
                    (exec AVR_ATmega328P
                       (construct 1 5 7 10
                          :: [call 1 call_init; call 0 call_init;
                              call 1 (call_getFirmwareVersion [0; 0]);
                              call 0 (call_connect "ssid" "password" 0)])
                       (bind_object no_objects 0 fresh)) shield))).
Proof.
  apply (inert_until_next_construction AVR_ATmega328P 1%nat 5 7 10
           [call 1 call_init; call 0 call_init;
            call 1 (call_getFirmwareVersion [0; 0]);
            call 0 (call_connect "ssid" "password" 0)]
           (bind_object no_objects 0 fresh) shield).
  - intros x self. unfold bind_object, no_objects.
    destruct (Nat.eqb x 0); [intros [= <-]; reflexivity|discriminate].
  - right. split; discriminate.
  - reflexivity.
Defined.

(** X7 on the shield, declared after a breakout board on pin 5. *)
Lemma ready_iff_init_called_since_construction_witness :
  exists self,
    snd (fst (runState
                (exec AVR_ATmega328P
                   ([construct 0 5 7 10; call 0 call_init]
                      ++ construct 1 2 7 10
                      :: [call 0 (call_getMacAddress [0; 0; 0; 0; 0; 0]);
                          call 1 call_init])
                   no_objects) boot)) 1%nat = Some self
    /\ is_initialized_ self
       = existsb (is_init_on 1)
           [call 0 (call_getMacAddress [0; 0; 0; 0; 0; 0]);
            call 1 call_init].
Proof.
  apply (ready_iff_init_called_since_construction AVR_ATmega328P
           [construct 0 5 7 10; call 0 call_init]
           [call 0 (call_getMacAddress [0; 0; 0; 0; 0; 0]);
            call 1 call_init]
           1%nat 2 7 10 no_objects boot).
  - reflexivity.
  - left. reflexivity.
  - reflexivity.
Defined.

(** X10 on the shield after bring-up, with a chip that refuses. *)
Lemma every_query_reaches_the_driver_once_witness :
  count_events is_nvmem_call
    (trace (snd (runState
       (invoke_all (H := chip_refusing) AVR_ATmega328P
          [call_getFirmwareVersion [0; 0]; call_init;
           call_getFirmwareVersion [0; 0];
           call_getMacAddress [0; 0; 0; 0; 0; 0]] ready) shield_up)))
  = Nat.add
      (count_events is_nvmem_call (trace shield_up))
      (List.length (filter is_call_query
         [call_getFirmwareVersion [0; 0]; call_init;
          call_getFirmwareVersion [0; 0];
          call_getMacAddress [0; 0; 0; 0; 0; 0]])).
Proof.
  apply (every_query_reaches_the_driver_once (H := chip_refusing)
           AVR_ATmega328P
           [call_getFirmwareVersion [0; 0]; call_init;
            call_getFirmwareVersion [0; 0];
            call_getMacAddress [0; 0; 0; 0; 0; 0]] ready shield_up).
  reflexivity.
Defined.
